(** * WhatsApp Flows endpoint: the cryptographic envelope

    A shallow embedding of [encryption.py] ([decrypt_request],
    [encrypt_response]) and of the signature verifier and request handler
    of [server.py] ([is_request_signature_valid], [handle_flow_request]).

    Python values are modelled as follows.
    - [bytes] is a [list Z] whose elements lie in [0, 256) ([is_bytes]).
    - [str] is a [list Z] of Unicode code points.
    - a [dict] with string keys is a [gmap (list Z) _]; [d.get(k)] is
      [d !! k], with [None] for an absent key.
    - an exception is a value of [exn]; a function that may raise returns
      a [result]; a function that also logs returns a [logged] result,
      the list of the records it handed to the logger, oldest first.

    The cryptographic primitives themselves (PEM loading, RSA-OAEP, the
    AES-GCM transform, HMAC-SHA256) and the JSON codec belong to external
    libraries; they are the fields of the class [Libs].  The argument
    validation that the libraries perform before touching the primitives,
    base64, UTF-8, [str.replace] and [hmac.compare_digest] are written
    out. *)

From Stdlib Require Import ZArith List String Ascii Bool Lia DecimalString.
From stdpp Require Import base option list gmap.

Local Open Scope Z_scope.

(** ** Python data *)

Abbreviation bytes := (list Z) (only parsing).
Abbreviation str := (list Z) (only parsing).

Definition is_byte (b : Z) : Prop := 0 <= b < 256.
Definition is_bytes (l : list Z) : Prop := Forall is_byte l.

Definition byteb (b : Z) : bool := (0 <=? b) && (b <? 256).
Definition bytesb (l : list Z) : bool := forallb byteb l.

(** The code points of a literal. *)
Definition lit (s : string) : list Z :=
  List.map (fun c => Z.of_N (N_of_ascii c)) (list_ascii_of_string s).

(** [str.isascii()], the test behind every implicit ASCII encoding. *)
Definition isascii (s : list Z) : bool :=
  forallb (fun c => (0 <=? c) && (c <? 128)) s.

(** Values that [json.loads] produces and [json.dumps] consumes.  A float
    is kept as the bit pattern of its IEEE-754 double. *)
Inductive json : Type :=
| JNull
| JBool (b : bool)
| JInt (n : Z)
| JFloat (bits : Z)
| JStr (s : list Z)
| JList (xs : list json)
| JDict (kvs : list (list Z * json)).

(** Exceptions raised by the interpreter and the libraries. *)
Inductive py_exn : Type :=
| TypeError
| ValueError
| AttributeError
| UnicodeEncodeError
| UnicodeDecodeError
| JSONDecodeError
| BinasciiError
| InvalidTag
| UnsupportedAlgorithm.

(** [class FlowEndpointException(Exception)] carries [status_code] and the
    message; every other exception comes from outside the repository. *)
Inductive exn : Type :=
| FlowEndpointException (status_code : Z) (message : string)
| PyExn (e : py_exn).

Inductive result (A : Type) : Type :=
| Ok (a : A)
| Raise (e : exn).
Arguments Ok {A} a.
Arguments Raise {A} e.

Definition raise_py {A : Type} (e : py_exn) : result A := Raise (PyExn e).

Definition is_flow_endpoint_exception (e : exn) : bool :=
  match e with
  | FlowEndpointException _ _ => true
  | PyExn _ => false
  end.

Definition result_bind {A B : Type} (r : result A) (k : A -> result B) : result B :=
  match r with
  | Ok a => k a
  | Raise e => Raise e
  end.

(** ** Logging *)

Inductive log_level : Type := DEBUG | INFO | WARNING | ERROR | CRITICAL.

(** A record handed to [logger]: the level, the fixed part of the message
    and the exception interpolated into it, if any. *)
Record log_record : Type := Log {
  levelname : log_level;
  msg : string;
  exc : option exn
}.

(** A computation that may raise and that logs on the way. *)
Definition logged (A : Type) : Type := (result A * list log_record)%type.

Definition ret {A : Type} (a : A) : logged A := (Ok a, []).
Definition throw {A : Type} (e : exn) : logged A := (Raise e, []).
Definition lift {A : Type} (r : result A) : logged A := (r, []).
Definition log (lvl : log_level) (m : string) (e : option exn) : logged unit :=
  (Ok tt, [Log lvl m e]).

Definition bind {A B : Type} (c : logged A) (k : A -> logged B) : logged B :=
  match c with
  | (Ok a, l1) => let (r, l2) := k a in (r, l1 ++ l2)
  | (Raise e, l1) => (Raise e, l1)
  end.

(** [try: c  except Exception as error: h error] *)
Definition try_except {A : Type} (c : logged A) (h : exn -> logged A) : logged A :=
  match c with
  | (Ok a, l1) => (Ok a, l1)
  | (Raise e, l1) => let (r, l2) := h e in (r, l1 ++ l2)
  end.

Definition from_lib {A : Type} (r : py_exn + A) : result A :=
  match r with
  | inl e => Raise (PyExn e)
  | inr a => Ok a
  end.

Declare Scope py_scope.
Delimit Scope py_scope with py.
Notation "'let!' x ':=' c 'in' k" := (bind c (fun x => k))
  (at level 10, x name, c at level 100, k at level 200) : py_scope.
Notation "'do!' c 'in' k" := (bind c (fun _ => k))
  (at level 10, c at level 100, k at level 200) : py_scope.

Notation "'let?' x ':=' c 'in' k" := (result_bind c (fun x => k))
  (at level 10, x name, c at level 100, k at level 200) : py_scope.
Notation "'do?' c 'in' k" := (result_bind c (fun _ => k))
  (at level 10, c at level 100, k at level 200) : py_scope.

(** ** Slices *)

(** [b[:-n]] and [b[-n:]] for a positive [n]: when [b] has fewer than [n]
    elements the first is empty and the second is all of [b]. *)
Definition slice_to_neg {A : Type} (n : nat) (b : list A) : list A :=
  take (length b - n)%nat b.
Definition slice_from_neg {A : Type} (n : nat) (b : list A) : list A :=
  drop (length b - n)%nat b.

(** ** [str.replace(old, new)] *)

Fixpoint starts_with (p s : list Z) : bool :=
  match p, s with
  | [], _ => true
  | _ :: _, [] => false
  | a :: p', b :: s' => (a =? b) && starts_with p' s'
  end.

(** Left to right, non-overlapping, for a non-empty [old]: [skip] counts
    the characters of a match that are still to be passed over. *)
Fixpoint replace_from (old new : list Z) (skip : nat) (s : list Z) : list Z :=
  match s with
  | [] => []
  | c :: s' =>
    match skip with
    | S k => replace_from old new k s'
    | O =>
      if starts_with old s
      then new ++ replace_from old new (length old - 1)%nat s'
      else c :: replace_from old new O s'
    end
  end.

Definition str_replace (s old new : list Z) : list Z :=
  replace_from old new O s.

(** ** [hmac.compare_digest] on two [str] arguments *)

(** Both strings must be ASCII, otherwise [TypeError]; the result is their
    equality. *)
Definition compare_digest (a b : list Z) : result bool :=
  if isascii a && isascii b
  then Ok (bool_decide (a = b))
  else raise_py TypeError.

(** ** [bytes.hex], as used by [HMAC.hexdigest] *)

Definition hexdigit (n : Z) : Z :=
  nth (Z.to_nat n) (lit "0123456789abcdef") 48.

Definition hex (b : list Z) : list Z :=
  flat_map (fun x => [hexdigit (Z.shiftr x 4); hexdigit (Z.land x 15)]) b.

(** A lower-case hexadecimal digit. *)
Definition hexchar (c : Z) : bool :=
  ((48 <=? c) && (c <=? 57)) || ((97 <=? c) && (c <=? 102)).

(** ** [base64.b64encode] and [base64.b64decode] *)

Definition b64_alphabet : list Z :=
  lit "ABCDEFGHIJKLMNOPQRSTUVWXYZabcdefghijklmnopqrstuvwxyz0123456789+/".

Definition BASE64_PAD : Z := 61.

Definition b2a (v : Z) : Z := nth (Z.to_nat v) b64_alphabet 0.

Fixpoint index_of (c : Z) (l : list Z) (i : Z) : option Z :=
  match l with
  | [] => None
  | x :: l' => if x =? c then Some i else index_of c l' (i + 1)
  end.

(** The 6-bit value of a character of the alphabet, [None] for any other
    character. *)
Definition a2b (c : Z) : option Z := index_of c b64_alphabet 0.

Fixpoint b2a_base64 (data : list Z) : list Z :=
  match data with
  | [] => []
  | [a] =>
    [b2a (Z.shiftr a 2); b2a (Z.shiftl (Z.land a 3) 4); BASE64_PAD; BASE64_PAD]
  | [a; b] =>
    [b2a (Z.shiftr a 2);
     b2a (Z.lor (Z.shiftl (Z.land a 3) 4) (Z.shiftr b 4));
     b2a (Z.shiftl (Z.land b 15) 2); BASE64_PAD]
  | a :: b :: c :: rest =>
    b2a (Z.shiftr a 2)
    :: b2a (Z.lor (Z.shiftl (Z.land a 3) 4) (Z.shiftr b 4))
    :: b2a (Z.lor (Z.shiftl (Z.land b 15) 2) (Z.shiftr c 6))
    :: b2a (Z.land c 63)
    :: b2a_base64 rest
  end.

Definition b64encode (data : list Z) : list Z := b2a_base64 data.

(** [binascii.a2b_base64] without strict mode: characters outside the
    alphabet are skipped, a pad that completes a quad ends the input, and
    an incomplete quad at the end is an error.  [quad_pos] is the position
    in the current quad, [leftchar] the bits carried over, [pads] the
    number of pads seen since the last data character, [bin] the output so
    far. *)
Fixpoint a2b_base64_loop (s : list Z) (quad_pos leftchar pads : Z) (bin : list Z)
  : result (list Z) :=
  match s with
  | [] => if quad_pos =? 0 then Ok bin else raise_py BinasciiError
  | this_ch :: s' =>
    if this_ch =? BASE64_PAD then
      if (2 <=? quad_pos) && (4 <=? quad_pos + (pads + 1)) then Ok bin
      else a2b_base64_loop s' quad_pos leftchar
             (if 2 <=? quad_pos then pads + 1 else pads) bin
    else
      match a2b this_ch with
      | None => a2b_base64_loop s' quad_pos leftchar pads bin
      | Some v =>
        if quad_pos =? 0 then a2b_base64_loop s' 1 v 0 bin
        else if quad_pos =? 1 then
          a2b_base64_loop s' 2 (Z.land v 15) 0
            (bin ++ [Z.land (Z.lor (Z.shiftl leftchar 2) (Z.shiftr v 4)) 255])
        else if quad_pos =? 2 then
          a2b_base64_loop s' 3 (Z.land v 3) 0
            (bin ++ [Z.land (Z.lor (Z.shiftl leftchar 4) (Z.shiftr v 2)) 255])
        else
          a2b_base64_loop s' 0 0 0
            (bin ++ [Z.land (Z.lor (Z.shiftl leftchar 6) v) 255])
      end
  end.

Definition a2b_base64 (s : list Z) : result (list Z) :=
  a2b_base64_loop s 0 0 0 [].

(** [base64.b64decode(s)] applied to a value taken from a parsed JSON
    body, or to [None] ([JNull]).  A [str] must be ASCII ([ValueError]
    otherwise); anything that is neither a [str] nor bytes-like is a
    [TypeError]. *)
Definition b64decode (s : json) : result (list Z) :=
  match s with
  | JStr t => if isascii t then a2b_base64 t else raise_py ValueError
  | _ => raise_py TypeError
  end.

(** A 6-bit value, and the four of them that three bytes are cut into. *)
Definition sextet (v : Z) : Prop := 0 <= v < 64.
Definition sextetb (v : Z) : bool := (0 <=? v) && (v <? 64).
Definition s1 (a : Z) : Z := Z.shiftr a 2.
Definition s2 (a b : Z) : Z := Z.lor (Z.shiftl (Z.land a 3) 4) (Z.shiftr b 4).
Definition s3 (b c : Z) : Z := Z.lor (Z.shiftl (Z.land b 15) 2) (Z.shiftr c 6).
Definition s4 (c : Z) : Z := Z.land c 63.

(** ** UTF-8 *)

Definition is_cont (b : Z) : bool := (128 <=? b) && (b <=? 191).
Definition in_range (lo hi b : Z) : bool := (lo <=? b) && (b <=? hi).
Definition low6 (b : Z) : Z := Z.land b 63.

(** [bytes.decode('utf-8')], strict: [None] stands for
    [UnicodeDecodeError]. *)
Fixpoint utf8_decode (b : list Z) : option (list Z) :=
  match b with
  | [] => Some []
  | b0 :: r0 =>
    if in_range 0 127 b0 then cons b0 <$> utf8_decode r0
    else if in_range 194 223 b0 then
      match r0 with
      | b1 :: r1 =>
        if is_cont b1
        then cons (Z.lor (Z.shiftl (Z.land b0 31) 6) (low6 b1)) <$> utf8_decode r1
        else None
      | _ => None
      end
    else if in_range 224 239 b0 then
      match r0 with
      | b1 :: b2 :: r2 =>
        if in_range (if b0 =? 224 then 160 else 128)
                    (if b0 =? 237 then 159 else 191) b1 && is_cont b2
        then cons (Z.lor (Z.shiftl (Z.land b0 15) 12)
                     (Z.lor (Z.shiftl (low6 b1) 6) (low6 b2)))
               <$> utf8_decode r2
        else None
      | _ => None
      end
    else if in_range 240 244 b0 then
      match r0 with
      | b1 :: b2 :: b3 :: r3 =>
        if in_range (if b0 =? 240 then 144 else 128)
                    (if b0 =? 244 then 143 else 191) b1
           && is_cont b2 && is_cont b3
        then cons (Z.lor (Z.shiftl (Z.land b0 7) 18)
                     (Z.lor (Z.shiftl (low6 b1) 12)
                        (Z.lor (Z.shiftl (low6 b2) 6) (low6 b3))))
               <$> utf8_decode r3
        else None
      | _ => None
      end
    else None
  end.

Definition encode_code_point (c : Z) : option (list Z) :=
  if in_range 0 127 c then Some [c]
  else if in_range 128 2047 c then
    Some [Z.lor 192 (Z.shiftr c 6); Z.lor 128 (low6 c)]
  else if in_range 55296 57343 c then None
  else if in_range 2048 65535 c then
    Some [Z.lor 224 (Z.shiftr c 12); Z.lor 128 (low6 (Z.shiftr c 6));
          Z.lor 128 (low6 c)]
  else if in_range 65536 1114111 c then
    Some [Z.lor 240 (Z.shiftr c 18); Z.lor 128 (low6 (Z.shiftr c 12));
          Z.lor 128 (low6 (Z.shiftr c 6)); Z.lor 128 (low6 c)]
  else None.

(** [str.encode('utf-8')]: [None] stands for [UnicodeEncodeError], raised
    for a lone surrogate. *)
Fixpoint utf8_encode (s : list Z) : option (list Z) :=
  match s with
  | [] => Some []
  | c :: s' =>
    match encode_code_point c, utf8_encode s' with
    | Some b, Some r => Some (b ++ r)
    | _, _ => None
    end
  end.

Definition str_encode_utf8 (s : list Z) : result (list Z) :=
  match utf8_encode s with
  | Some b => Ok b
  | None => raise_py UnicodeEncodeError
  end.

Definition bytes_decode_utf8 (b : list Z) : result (list Z) :=
  match utf8_decode b with
  | Some s => Ok s
  | None => raise_py UnicodeDecodeError
  end.

(** ** The external libraries *)

(** What the code takes from [cryptography], [hmac]/[hashlib], [json] and
    the web framework.  A library call either returns ([inr]) or raises
    one of its own exceptions ([inl]); no library can raise
    [FlowEndpointException], which this repository defines. *)
Class Libs : Type := {
  (** the object returned by [serialization.load_pem_private_key] *)
  private_key : Type;
  (** [serialization.load_pem_private_key(data, password=password)] *)
  load_pem_private_key : list Z -> option (list Z) -> py_exn + private_key;
  (** [key.decrypt(ciphertext, padding.OAEP(mgf=padding.MGF1(SHA256()),
      algorithm=SHA256(), label=None))] *)
  rsa_decrypt_oaep_sha256 : private_key -> list Z -> py_exn + list Z;
  (** AES-GCM encryption under a key and an IV, no associated data: the
      ciphertext and the tag. *)
  aes_gcm_encrypt : list Z -> list Z -> list Z -> list Z * list Z;
  (** AES-GCM decryption of a ciphertext against a tag; [None] when the
      tag does not authenticate it. *)
  aes_gcm_decrypt : list Z -> list Z -> list Z -> list Z -> option (list Z);
  (** [hmac.new(key, msg, hashlib.sha256).digest()] *)
  hmac_sha256 : list Z -> list Z -> list Z;
  (** [json.loads(s)] for a [str] *)
  json_loads : list Z -> py_exn + json;
  (** [json.dumps(obj)] *)
  json_dumps : json -> list Z;
  (** [await request.json()], from the raw body *)
  request_json : list Z -> py_exn + json
}.

(** *** Argument checks of [cryptography]'s [Cipher] *)

(** [algorithms.AES(key)] under a GCM mode: 128, 192 or 256 bits. *)
Definition aes_key_ok (key : list Z) : bool :=
  let n := length key in
  (n =? 16)%nat || (n =? 24)%nat || (n =? 32)%nat.

(** [modes.GCM(iv, ...)]: between 8 and 128 bytes. *)
Definition gcm_iv_ok (iv : list Z) : bool :=
  let n := length iv in (8 <=? n)%nat && (n <=? 128)%nat.

(** [modes.GCM(iv, tag)]: a tag is at least [min_tag_length = 16] bytes. *)
Definition gcm_tag_ok (tag : list Z) : bool := (16 <=? length tag)%nat.

(** [Cipher(algorithms.AES(key), modes.GCM(iv, tag))]: every violation is
    a [ValueError]. *)
Definition Cipher_AES_GCM (key iv : list Z) (tag : option (list Z)) : result unit :=
  if negb (aes_key_ok key) then raise_py ValueError
  else if negb (gcm_iv_ok iv) then raise_py ValueError
  else match tag with
       | Some t => if gcm_tag_ok t then Ok tt else raise_py ValueError
       | None => Ok tt
       end.

(** *** What the code relies on

    The documented behaviour of the libraries that the properties below
    assume: [json.dumps] with its default [ensure_ascii] returns ASCII
    text; under a key and an IV that [Cipher] accepts, AES-GCM encryption
    returns bytes and a 16-byte tag, and decryption of that ciphertext
    against that tag returns the plaintext; an HMAC-SHA256 digest is a
    string of 32 bytes. *)
Class LibsContract (L : Libs) : Prop := {
  json_dumps_ascii : forall j, isascii (json_dumps j) = true;
  aes_gcm_encrypt_bytes : forall key iv plain,
    aes_key_ok key = true -> gcm_iv_ok iv = true -> is_bytes plain ->
    is_bytes (fst (aes_gcm_encrypt key iv plain))
    /\ is_bytes (snd (aes_gcm_encrypt key iv plain));
  aes_gcm_tag_length : forall key iv plain,
    aes_key_ok key = true -> gcm_iv_ok iv = true ->
    length (snd (aes_gcm_encrypt key iv plain)) = 16%nat;
  hmac_sha256_bytes : forall key message, is_bytes (hmac_sha256 key message);
  hmac_sha256_length : forall key message,
    length (hmac_sha256 key message) = 32%nat;
  aes_gcm_decrypt_encrypt : forall key iv plain,
    aes_key_ok key = true -> gcm_iv_ok iv = true -> is_bytes plain ->
    aes_gcm_decrypt key iv (fst (aes_gcm_encrypt key iv plain))
      (snd (aes_gcm_encrypt key iv plain)) = Some plain
}.

Section Encryption.
Context {L : Libs}.
Local Open Scope py_scope.

(** ** encryption.py *)

(** The dict that [decrypt_request] returns. *)
Record decrypted : Type := Decrypted {
  decrypted_body : json;
  aes_key : list Z;
  initial_vector : list Z
}.

Definition TAG_LENGTH : nat := 16.

(** [body.get(key)] *)
Definition get (body : gmap (list Z) json) (key : string) : json :=
  default JNull (body !! lit key).

(** [decryptor.update(data) + decryptor.finalize()]: [finalize] raises
    [InvalidTag]. *)
Definition decryptor_run (key iv tag data : list Z) : result (list Z) :=
  match aes_gcm_decrypt key iv data tag with
  | Some plain => Ok plain
  | None => raise_py InvalidTag
  end.

(** The [try] block of [decrypt_request]: the wrapped key is decoded and
    decrypted; whatever is raised inside is logged and replaced by
    [FlowEndpointException(421, ...)]. *)
(** The message of the [FlowEndpointException] raised by the [except]
    branch. *)
Definition KEY_UNWRAP_MESSAGE : string :=
  "Failed to decrypt the request. Please verify your private key.".

Definition unwrap_aes_key (sk : private_key) (encrypted_aes_key : json)
  : result (list Z) :=
  let? blob := b64decode encrypted_aes_key in
  from_lib (rsa_decrypt_oaep_sha256 sk blob).

Definition decrypt_aes_key (sk : private_key) (encrypted_aes_key : json)
  : logged (list Z) :=
  try_except
    (lift (unwrap_aes_key sk encrypted_aes_key))
    (fun error =>
       do! log ERROR "Decryption error: " (Some error) in
       throw (FlowEndpointException 421 KEY_UNWRAP_MESSAGE)).

(** The lines under [# Load private key]: an empty passphrase is passed
    on as [None]. *)
Definition load_private_key (private_pem passphrase : list Z) : result private_key :=
  let? passphrase_bytes :=
    match passphrase with
    | [] => Ok None
    | _ => let? b := str_encode_utf8 passphrase in Ok (Some b)
    end in
  let? pem_bytes := str_encode_utf8 private_pem in
  from_lib (load_pem_private_key pem_bytes passphrase_bytes).

(** The lines from [# Decrypt flow data] to the [return]: nothing here is
    inside a [try]. *)
Definition decrypt_flow_data (decrypted_aes_key : list Z)
    (encrypted_flow_data initial_vector : json) : result decrypted :=
  let? flow_data_buffer := b64decode encrypted_flow_data in
  let? initial_vector_buffer := b64decode initial_vector in
  let encrypted_flow_data_body := slice_to_neg TAG_LENGTH flow_data_buffer in
  let encrypted_flow_data_tag := slice_from_neg TAG_LENGTH flow_data_buffer in
  (* Decrypt using AES-128-GCM *)
  do? Cipher_AES_GCM decrypted_aes_key initial_vector_buffer
        (Some encrypted_flow_data_tag) in
  let? decrypted_data :=
    decryptor_run decrypted_aes_key initial_vector_buffer
      encrypted_flow_data_tag encrypted_flow_data_body in
  let? decrypted_json_string := bytes_decode_utf8 decrypted_data in
  let? parsed := from_lib (json_loads decrypted_json_string) in
  Ok {| decrypted_body := parsed;
        aes_key := decrypted_aes_key;
        initial_vector := initial_vector_buffer |}.

Definition decrypt_request (body : gmap (list Z) json)
    (private_pem passphrase : list Z) : logged decrypted :=
  let encrypted_aes_key := get body "encrypted_aes_key" in
  let encrypted_flow_data := get body "encrypted_flow_data" in
  let initial_vector := get body "initial_vector" in
  (* Load private key *)
  let! private_key := lift (load_private_key private_pem passphrase) in
  (* Decrypt AES key *)
  let! decrypted_aes_key := decrypt_aes_key private_key encrypted_aes_key in
  (* Decrypt flow data *)
  lift (decrypt_flow_data decrypted_aes_key encrypted_flow_data initial_vector).

(** [bytes(~b & 0xFF for b in initial_vector)] *)
Definition flip_iv (initial_vector : list Z) : list Z :=
  List.map (fun b => Z.land (Z.lnot b) 255) initial_vector.

Definition encrypt_response (response : json) (aes_key initial_vector : list Z)
  : result (list Z) :=
  (* Flip initial vector *)
  let flipped_iv := flip_iv initial_vector in
  (* Encrypt response data using AES-128-GCM *)
  do? Cipher_AES_GCM aes_key flipped_iv None in
  let response_json := json_dumps response in
  let? plain := str_encode_utf8 response_json in
  let '(encrypted_data, tag) := aes_gcm_encrypt aes_key flipped_iv plain in
  (* Combine encrypted data and auth tag *)
  let encrypted_data_with_tag := encrypted_data ++ tag in
  bytes_decode_utf8 (b64encode encrypted_data_with_tag).

End Encryption.

(** ** server.py *)

Section Server.
Context {L : Libs}.
Local Open Scope py_scope.

(** Module-level configuration, read from the environment at import:
    [os.getenv] gives [None] for an unset variable. *)
Variable APP_SECRET : option (list Z).
Variable PRIVATE_KEY : option (list Z).
Variable PASSPHRASE : list Z.

(** [not x] for an [Optional[str]]: true for [None] and for the empty
    string. *)
Definition falsy (x : option (list Z)) : bool :=
  match x with
  | None | Some [] => true
  | Some (_ :: _) => false
  end.

Definition is_request_signature_valid (signature_header : option (list Z))
    (raw_body : list Z) : logged bool :=
  if falsy APP_SECRET then
    do! log CRITICAL
          "CRITICAL: App Secret is not set. Rejecting request for security." None in
    do! log WARNING "Set APP_SECRET in .env file to accept requests." None in
    ret false
  else if falsy signature_header then ret false
  else
    let signature := str_replace (default [] signature_header) (lit "sha256=") [] in
    (* Calculate expected signature *)
    let! key := lift (str_encode_utf8 (default [] APP_SECRET)) in
    let expected_signature := hex (hmac_sha256 key raw_body) in
    (* Constant time comparison *)
    let! same := lift (compare_digest expected_signature signature) in
    if negb same then
      do! log ERROR "Request Signature did not match" None in
      ret false
    else ret true.

(** What the handler hands back to the framework: [HTTPException] and
    [Response].  The detail of the one [HTTPException] is kept without
    the quotation marks around the variable name. *)
Inductive http_reply : Type :=
| HTTPException (status_code : Z) (detail : string)
| Response (status_code : Z) (content : list Z).

Definition reply_status (r : http_reply) : Z :=
  match r with
  | HTTPException sc _ => sc
  | Response sc _ => sc
  end.

(** The conversation logic of [flow.py], called between decryption and
    encryption. *)
Variable get_next_screen : json -> result json.

(** [decrypt_request(body, ...)] on whatever [request.json()] returned:
    only a dict has [get]. *)
Definition decrypt_parsed (body : json) (private_pem : list Z) : logged decrypted :=
  match body with
  | JDict kvs => decrypt_request (list_to_map kvs) private_pem PASSPHRASE
  | _ => lift (raise_py AttributeError)
  end.

(** The [try]/[except] around [decrypt_request] in the handler: the
    status of the reply when decryption raises. *)
Definition decrypt_or_reply (body : json) (private_pem : list Z)
  : logged (http_reply + decrypted) :=
  match decrypt_parsed body private_pem with
  | (Ok d, l) => (Ok (inr d), l)
  | (Raise (FlowEndpointException sc m), l) =>
    (Ok (inl (Response sc [])),
     l ++ [Log ERROR "FlowEndpointException: " (Some (FlowEndpointException sc m))])
  | (Raise (PyExn e), l) =>
    (Ok (inl (Response 500 [])),
     l ++ [Log ERROR "Error decrypting request: " (Some (PyExn e))])
  end.

Definition handle_flow_request (signature_header : option (list Z))
    (raw_body : list Z) : logged http_reply :=
  match PRIVATE_KEY with
  | None | Some [] =>
    ret (HTTPException 500
           "Private key is empty. Please check your env variable PRIVATE_KEY.")
  | Some private_pem =>
    (* Validate signature *)
    let! valid := is_request_signature_valid signature_header raw_body in
    if negb valid then ret (Response 432 [])
    else
      (* Parse JSON body *)
      let! body := lift (from_lib (request_json raw_body)) in
      (* Decrypt request *)
      let! outcome := decrypt_or_reply body private_pem in
      match outcome with
      | inl reply => ret reply
      | inr decrypted_request =>
        let aes_key := aes_key decrypted_request in
        let initial_vector := initial_vector decrypted_request in
        let decrypted_body := decrypted_body decrypted_request in
        (* the log line calls decrypted_body.get *)
        do! lift (match decrypted_body with
                  | JDict _ => Ok tt
                  | _ => raise_py AttributeError
                  end) in
        do! log INFO "Decrypted Request" None in
        do! log DEBUG "Full decrypted body" None in
        (* Get screen response *)
        let! screen_response := lift (get_next_screen decrypted_body) in
        do! log INFO "Screen response prepared" None in
        do! log DEBUG "Response to encrypt" None in
        (* Encrypt and return response *)
        let! encrypted_response :=
          lift (encrypt_response screen_response aes_key initial_vector) in
        ret (Response 200 encrypted_response)
      end
  end.

End Server.

(** ** A small instance of the libraries

    [Bench] instantiates [Libs] with stand-ins that compute, so that the
    code above can be run on concrete requests.  Each stand-in keeps the
    interface and the failure behaviour of the library function it stands
    for; none of them is the real cipher. *)
Module Bench.

Definition total (l : list Z) : Z := fold_right Z.add 0 l.

(** A key file is [P] followed by the key material, or, when it is
    protected by a passphrase, [E], a check character of the passphrase and
    the key material.  Loading follows [load_pem_private_key]: a password
    for an unprotected key or none for a protected one is a [TypeError],
    a wrong password or an unreadable file a [ValueError]. *)
Definition load_key (data : list Z) (password : option (list Z))
  : py_exn + list Z :=
  match data, password with
  | 80 :: material, None => inr material
  | 80 :: _, Some _ => inl TypeError
  | 69 :: _ :: _, None => inl TypeError
  | 69 :: check :: material, Some p =>
    if total p mod 128 =? check then inr material else inl ValueError
  | _, _ => inl ValueError
  end.

(** A wrapped key is the key material of the pair followed by the
    payload; unwrapping under another key fails with [ValueError]. *)
Definition wrap (material payload : list Z) : list Z := material ++ payload.

Definition unwrap (material ciphertext : list Z) : py_exn + list Z :=
  if starts_with material ciphertext
  then inr (drop (length material) ciphertext)
  else inl ValueError.

(** The cipher adds a running counter to each byte, modulo 256. *)
Fixpoint shift_stream (seed : Z) (data : list Z) : list Z :=
  match data with
  | [] => []
  | x :: rest => (x + seed) mod 256 :: shift_stream (seed + 1) rest
  end.

Fixpoint unshift_stream (seed : Z) (data : list Z) : list Z :=
  match data with
  | [] => []
  | x :: rest => (x - seed) mod 256 :: unshift_stream (seed + 1) rest
  end.

Definition make_tag (key iv ciphertext : list Z) : list Z :=
  repeat ((total key + total iv + total ciphertext) mod 256) 16.

Definition seal (key iv plain : list Z) : list Z * list Z :=
  let ciphertext := shift_stream (total key + total iv) plain in
  (ciphertext, make_tag key iv ciphertext).

Definition unseal (key iv ciphertext tag : list Z) : option (list Z) :=
  if bool_decide (tag = make_tag key iv ciphertext)
  then Some (unshift_stream (total key + total iv) ciphertext)
  else None.

Definition mac (key message : list Z) : list Z :=
  List.map (fun i => (31 * total key + total message + Z.of_nat i) mod 256) (seq 0 32).

Definition QUOTE : Z := 34.

(** A printer for JSON values in the layout of [json.dumps]; strings are
    printed without escapes and floats are not told apart. *)
Fixpoint print (j : json) : list Z :=
  match j with
  | JNull => lit "null"
  | JBool true => lit "true"
  | JBool false => lit "false"
  | JInt n => lit (NilZero.string_of_int (Z.to_int n))
  | JFloat _ => lit "0.0"
  | JStr s => QUOTE :: s ++ [QUOTE]
  | JList xs =>
    91 :: (fix items (xs : list json) : list Z :=
             match xs with
             | [] => []
             | x :: rest =>
               print x
               ++ match rest with [] => [] | _ => lit ", " ++ items rest end
             end) xs ++ [93]
  | JDict kvs =>
    123 :: (fix members (kvs : list (list Z * json)) : list Z :=
              match kvs with
              | [] => []
              | (k, v) :: rest =>
                (QUOTE :: k ++ [QUOTE]) ++ lit ": " ++ print v
                ++ match rest with [] => [] | _ => lit ", " ++ members rest end
              end) kvs ++ [125]
  end.

(** A character outside ASCII is printed as a question mark. *)
Definition clamp (c : Z) : Z := if (0 <=? c) && (c <? 128) then c else 63.

Definition dumps (j : json) : list Z := List.map clamp (print j).

Definition ping : json := JDict [(lit "action", JStr (lit "ping"))].
Definition status_active : json :=
  JDict [(lit "data", JDict [(lit "status", JStr (lit "active"))])].

(** The parser recognises the documents of [corpus], in the layout of
    [json_dumps]; any other text is a [JSONDecodeError]. *)
Definition parse (corpus : list json) (text : list Z) : py_exn + json :=
  match List.find (fun j => bool_decide (dumps j = text)) corpus with
  | Some j => inr j
  | None => inl JSONDecodeError
  end.

Definition loads : list Z -> py_exn + json := parse [ping; status_active].

(** A key pair of [Bench], the same one with and without a passphrase,
    and a second, unrelated one. *)
Definition key_material : list Z := [7; 7; 7; 7].
Definition other_material : list Z := [9; 9; 9; 9].
Definition private_pem : list Z := 80 :: key_material.
Definition passphrase : list Z := lit "hunter2".
Definition protected_pem : list Z := 69 :: (total passphrase mod 128) :: key_material.

(** The request of the end-to-end scenario: a 16-byte AES key, a 16-byte
    IV and the plaintext [ping]. *)
Definition k : list Z := List.map Z.of_nat (seq 1 16).
Definition iv : list Z :=
  [254; 220; 186; 152; 118; 84; 50; 16; 254; 220; 186; 152; 118; 84; 50; 16].
Definition plain : list Z := dumps ping.

Definition sealed : list Z :=
  let '(c, t) := seal k iv plain in c ++ t.

Definition envelope (wrapped payload vector : list Z) : gmap (list Z) json :=
  <[lit "encrypted_aes_key" := JStr (b64encode wrapped)]>
    (<[lit "encrypted_flow_data" := JStr (b64encode payload)]>
       (<[lit "initial_vector" := JStr (b64encode vector)]> ∅)).

Definition request : gmap (list Z) json := envelope (wrap key_material k) sealed iv.

(** Requests that go wrong after the key unwrap: a payload of three
    bytes, a payload whose last byte (the end of the tag) is altered, and
    a payload that authenticates but is not JSON. *)
Definition short_request : gmap (list Z) json :=
  envelope (wrap key_material k) [1; 2; 3] iv.

Definition tampered : list Z :=
  take (length sealed - 1)%nat sealed
  ++ List.map (fun b => (b + 1) mod 256) (drop (length sealed - 1)%nat sealed).
Definition tampered_request : gmap (list Z) json :=
  envelope (wrap key_material k) tampered iv.

Definition not_json_request : gmap (list Z) json :=
  envelope (wrap key_material k)
    (let '(c, t) := seal k iv (lit "hello") in c ++ t) iv.

(** A request whose key was wrapped for another key pair. *)
Definition foreign_request : gmap (list Z) json :=
  envelope (wrap other_material k) sealed iv.


(** The shared secret, the raw body that stands for [request], its
    digest with one bit flipped, another secret, and a signature header
    holding one character outside ASCII (the byte E9 of a header line, as
    the framework decodes it). *)
Definition app_secret : list Z := lit "s3cret".
Definition raw_body : list Z := lit "request".
Definition flipped_digest : list Z :=
  match mac app_secret raw_body with
  | [] => []
  | b :: rest => Z.lxor b 1 :: rest
  end.
Definition other_secret : list Z := lit "s3cres".
Definition latin1_header : list Z := [233].

(** [request.json()] knows the one request body of the scenario. *)
Definition body_of (raw : list Z) : py_exn + json :=
  if bool_decide (raw = raw_body)
  then inr (JDict (map_to_list request))
  else inl JSONDecodeError.

#[export] Instance libs : Libs :=
  Build_Libs (list Z) load_key unwrap seal unseal mac loads dumps body_of.

(** The verdict of the verifier of [Bench] on a header. *)
Definition verify (header : list Z) : result bool :=
  fst (is_request_signature_valid (Some app_secret) (Some header) raw_body).

End Bench.

(** ** flow.py *)

(** [x.get] exists on a dict only: on any other value taken from parsed
    JSON the attribute lookup raises [AttributeError]. *)
Definition as_dict (v : json) : result (gmap (list Z) json) :=
  match v with
  | JDict kvs => Ok (list_to_map kvs)
  | _ => raise_py AttributeError
  end.

(** [d.get(key, fallback)] *)
Definition get_or (d : gmap (list Z) json) (key : string) (fallback : json) : json :=
  default fallback (d !! lit key).

(** [value == "text"] for a value taken from parsed JSON. *)
Definition eq_str (value : json) (text : string) : bool :=
  match value with
  | JStr s => bool_decide (s = lit text)
  | _ => false
  end.

Section Flow.

(** [str(x)] of a float, a list or a dict, as the interpreter prints
    it. *)
Variable repr_compound : json -> list Z.

(** [str(x)], which an f-string applies to an interpolated value. *)
Definition py_str (v : json) : list Z :=
  match v with
  | JNull => lit "None"
  | JBool true => lit "True"
  | JBool false => lit "False"
  | JInt n => lit (NilZero.string_of_int (Z.to_int n))
  | JStr s => s
  | JFloat _ | JList _ | JDict _ => repr_compound v
  end.

Local Open Scope py_scope.

Definition handle_data_exchange (screen data flow_token : json)
    (decrypted_body : gmap (list Z) json) : logged json :=
  let version := get_or decrypted_body "version" (JStr (lit "3.0")) in
  if eq_str screen "WELCOME" then
    (* User submitted data from welcome screen *)
    let! d := lift (as_dict data) in
    ret (JDict [(lit "version", version);
                (lit "screen", JStr (lit "DETAILS"));
                (lit "data",
                 JDict [(lit "user_name", get_or d "name" (JStr (lit "User")));
                        (lit "message", JStr (lit "Please provide more details"))])])
  else if eq_str screen "DETAILS" then
    (* User submitted details *)
    let! d := lift (as_dict data) in
    let name := get_or d "name" JNull in
    let email := get_or d "email" JNull in
    let phone := get_or d "phone" JNull in
    do! log INFO "User details submitted for flow_token" None in
    (* Return success screen *)
    ret (JDict [(lit "version", version);
                (lit "screen", JStr (lit "SUCCESS"));
                (lit "data",
                 JDict [(lit "success", JBool true);
                        (lit "message",
                         JStr (lit "Thank you, " ++ py_str name ++ lit "!"));
                        (lit "confirmation_id", flow_token)])])
  else if eq_str screen "SUCCESS" then
    (* Flow completion *)
    ret (JDict [(lit "version", version);
                (lit "data",
                 JDict [(lit "extension_message_response",
                         JDict [(lit "params",
                                 JDict [(lit "flow_token", flow_token);
                                        (lit "some_param_name",
                                         JStr (lit "some_param_value"))])])])])
  else
    (* Unknown screen *)
    do! log WARNING "Unknown screen received" None in
    ret (JDict [(lit "version", version);
                (lit "data",
                 JDict [(lit "error",
                         JStr (lit "Unknown screen: " ++ py_str screen))])]).

Definition get_next_screen (decrypted_body : json) : logged json :=
  let! body := lift (as_dict decrypted_body) in
  let action := get_or body "action" JNull in
  let screen := get_or body "screen" JNull in
  let data := get_or body "data" (JDict []) in
  let flow_token := get_or body "flow_token" JNull in
  do! log INFO "Processing action" None in
  (* Handle different actions *)
  if eq_str action "ping" then
    (* Health check from WhatsApp *)
    ret (JDict [(lit "version", get_or body "version" (JStr (lit "3.0")));
                (lit "data", JDict [(lit "status", JStr (lit "active"))])])
  else if eq_str action "INIT" then
    (* Initialize flow - return first screen *)
    ret (JDict [(lit "version", get_or body "version" (JStr (lit "3.0")));
                (lit "screen", JStr (lit "WELCOME"));
                (lit "data",
                 JDict [(lit "welcome_message", JStr (lit "Welcome to our service!"));
                        (lit "flow_token", flow_token)])])
  else if eq_str action "data_exchange" then
    (* Handle data exchange between screens *)
    handle_data_exchange screen data flow_token body
  else
    (* Unknown action *)
    do! log WARNING "Unknown action received" None in
    ret (JDict [(lit "version", get_or body "version" (JStr (lit "3.0")));
                (lit "data",
                 JDict [(lit "error",
                         JStr (lit "Unknown action: " ++ py_str action))])]).

(** The flow logic as the handler awaits it: the reply, without the
    records of the flow module's own logger. *)
Definition next_screen (decrypted_body : json) : result json :=
  fst (get_next_screen decrypted_body).

End Flow.

(** The value stored under a key of a response dict, in the order the
    dict literal lists them. *)
Definition field (response : json) (key : string) : option json :=
  match response with
  | JDict kvs => (list_to_map kvs : gmap (list Z) json) !! lit key
  | _ => None
  end.

(** ** server.py: the webhook endpoints *)

Section Webhook.
Local Open Scope py_scope.

(** [os.getenv("WEBHOOK_VERIFY_TOKEN", "my_verify_token")] *)
Variable WEBHOOK_VERIFY_TOKEN : option (list Z).

Definition verify_token : list Z :=
  default (lit "my_verify_token") WEBHOOK_VERIFY_TOKEN.

(** [GET /webhook]; [query_params.get] gives [None] for an absent
    parameter, and a [None] challenge is an empty body. *)
Definition verify_webhook (query_params : gmap (list Z) (list Z)) : logged http_reply :=
  let mode := query_params !! lit "hub.mode" in
  let token := query_params !! lit "hub.verify_token" in
  let challenge := query_params !! lit "hub.challenge" in
  if bool_decide (mode = Some (lit "subscribe"))
     && bool_decide (token = Some verify_token)
  then
    do! log INFO "Webhook verified successfully" None in
    ret (Response 200 (default [] challenge))
  else
    do! log WARNING "Webhook verification failed" None in
    ret (Response 403 []).

(** What [handle_webhook] can raise inside its [try]. *)
Inductive lookup_error : Type :=
| IndexError
| KeyError
| NotSubscriptable
| NotIterable
| NoAttribute.

(** [x[0]] *)
Definition first_item (x : json) : lookup_error + json :=
  match x with
  | JList (v :: _) => inr v
  | JList [] => inl IndexError
  | JStr (c :: _) => inr (JStr [c])
  | JStr [] => inl IndexError
  | JDict _ => inl KeyError
  | JNull | JBool _ | JInt _ | JFloat _ => inl NotSubscriptable
  end.

(** [x.get(key, fallback)] *)
Definition attr_get (x : json) (key : string) (fallback : json) : lookup_error + json :=
  match x with
  | JDict kvs => inr (default fallback ((list_to_map kvs : gmap (list Z) json) !! lit key))
  | _ => inl NoAttribute
  end.

(** [bool(x)]: a float is false when it is [0.0] or [-0.0]. *)
Definition truthy (x : json) : bool :=
  match x with
  | JNull => false
  | JBool b => b
  | JInt n => negb (n =? 0)
  | JFloat bits => negb ((bits =? 0) || (bits =? 2 ^ 63))
  | JStr s => negb (bool_decide (s = []))
  | JList xs => negb (bool_decide (xs = []))
  | JDict kvs => negb (bool_decide (kvs = []))
  end.

(** [for message in x]: the items of a list, the characters of a str,
    the keys of a dict. *)
Definition items (x : json) : lookup_error + list json :=
  match x with
  | JList xs => inr xs
  | JStr s => inr (List.map (fun c => JStr [c]) s)
  | JDict kvs => inr (List.map (fun kv => JStr (fst kv)) kvs)
  | JNull | JBool _ | JInt _ | JFloat _ => inl NotIterable
  end.

(** The two dicts that [handle_webhook] returns; the message of the
    second is the text of the exception. *)
Inductive webhook_reply : Type :=
| status_ok
| status_error (e : lookup_error).

Definition sum_bind {E A B : Type} (r : E + A) (k : A -> E + B) : E + B :=
  match r with
  | inl e => inl e
  | inr a => k a
  end.

(** The body of the loop: the log line reads [message.get('from')] and
    [message.get('text', {}).get('body', 'N/A')]. *)
Definition log_message (message : json) : lookup_error + log_record :=
  sum_bind (attr_get message "from" JNull) (fun _ =>
  sum_bind (attr_get message "text" (JDict [])) (fun text =>
  sum_bind (attr_get text "body" (JStr (lit "N/A"))) (fun _ =>
  inr (Log INFO "New message" None)))).

(** The loop over the messages: the records logged before the first
    failure, and the failure if there is one. *)
Fixpoint log_messages (messages : list json) : list log_record * option lookup_error :=
  match messages with
  | [] => ([], None)
  | message :: rest =>
    match log_message message with
    | inl e => ([], Some e)
    | inr record =>
      let '(records, failure) := log_messages rest in (record :: records, failure)
    end
  end.

(** The lookups of the [try] block down to [messages]. *)
Definition webhook_messages (body : json) : lookup_error + json :=
  sum_bind (attr_get body "entry" (JList [JDict []])) (fun entries =>
  sum_bind (first_item entries) (fun entry =>
  sum_bind (attr_get entry "changes" (JList [JDict []])) (fun changes_list =>
  sum_bind (first_item changes_list) (fun changes =>
  sum_bind (attr_get changes "value" (JDict [])) (fun value =>
  attr_get value "messages" (JList [])))))).

(** [POST /webhook], once [request.json()] has returned [body]. *)
Definition handle_webhook (body : json) : webhook_reply * list log_record :=
  let received := Log INFO "Webhook received" None in
  let failed e := Log ERROR "Error processing webhook" None in
  match webhook_messages body with
  | inl e => (status_error e, [received; failed e])
  | inr messages =>
    if truthy messages then
      match items messages with
      | inl e => (status_error e, [received; failed e])
      | inr ms =>
        match log_messages ms with
        | (records, Some e) => (status_error e, received :: records ++ [failed e])
        | (records, None) => (status_ok, received :: records)
        end
      end
    else (status_ok, [received])
  end.

End Webhook.

(** ** flow.py: the validators *)

(** [ord(c)] *)
Definition ord (c : ascii) : Z := Z.of_N (N_of_ascii c).

(** The operations that [re] parses the two patterns into: [^] and [$]
    (no flag is given, so not [re.MULTILINE]), one character, one
    character of a set, and the greedy repetition of a character of a
    set from [lo] to [hi] times, without upper bound when [hi] is
    [None]. *)
Inductive re_op : Type :=
| AT_BEGINNING
| AT_END
| LITERAL (c : Z)
| IN (member : Z -> bool)
| MAX_REPEAT (lo : nat) (hi : option nat) (member : Z -> bool).

Definition may_repeat (hi : option nat) : bool :=
  match hi with
  | Some O => false
  | _ => true
  end.

(** The repetition takes the longest run first and gives characters
    back one by one until the rest of the pattern, [k], matches. *)
Fixpoint max_repeat (member : Z -> bool) (lo : nat) (hi : option nat)
    (k : nat -> list Z -> bool) (pos : nat) (s : list Z) : bool :=
  let stop := (lo =? 0)%nat && k pos s in
  match s with
  | c :: rest =>
    if may_repeat hi && member c
    then max_repeat member (Nat.pred lo) (option_map Nat.pred hi) k (S pos) rest || stop
    else stop
  | [] => stop
  end.

(** Matching from position [pos], where [s] is what is left of the
    string.  [$] holds at the end of the string and before a newline
    that ends it. *)
Fixpoint sre_match (pattern : list re_op) (pos : nat) (s : list Z) : bool :=
  match pattern with
  | [] => true
  | AT_BEGINNING :: pattern => (pos =? 0)%nat && sre_match pattern pos s
  | AT_END :: pattern =>
    (bool_decide (s = []) || bool_decide (s = [10])) && sre_match pattern pos s
  | LITERAL c :: pattern =>
    match s with
    | x :: rest => (x =? c) && sre_match pattern (S pos) rest
    | [] => false
    end
  | IN member :: pattern =>
    match s with
    | x :: rest => member x && sre_match pattern (S pos) rest
    | [] => false
    end
  | MAX_REPEAT lo hi member :: pattern =>
    max_repeat member lo hi (sre_match pattern) pos s
  end.

(** [re.match(pattern, string) is not None] *)
Definition re_match (pattern : list re_op) (string : list Z) : bool :=
  sre_match pattern 0 string.

(** [[a-zA-Z]] *)
Definition letter (c : Z) : bool :=
  in_range (ord "a") (ord "z") c || in_range (ord "A") (ord "Z") c.

(** [[a-zA-Z0-9.-]] *)
Definition domain_char (c : Z) : bool :=
  letter c || in_range (ord "0") (ord "9") c || (c =? ord ".") || (c =? ord "-").

(** [[a-zA-Z0-9._%+-]] *)
Definition local_char (c : Z) : bool :=
  letter c || in_range (ord "0") (ord "9") c
  || (c =? ord ".") || (c =? ord "_") || (c =? ord "%") || (c =? ord "+")
  || (c =? ord "-").

(** [r'^[a-zA-Z0-9._%+-]+@[a-zA-Z0-9.-]+\.[a-zA-Z]{2,}$'] *)
Definition EMAIL_PATTERN : list re_op :=
  [AT_BEGINNING; MAX_REPEAT 1 None local_char; LITERAL (ord "@");
   MAX_REPEAT 1 None domain_char; LITERAL (ord "."); MAX_REPEAT 2 None letter;
   AT_END].

(** The argument is a [str], as annotated. *)
Definition validate_email (email : list Z) : bool := re_match EMAIL_PATTERN email.

Section Phone.

(** The characters that [\d] matches in a [str] pattern: the decimal
    digits of the interpreter's Unicode database (category Nd). *)
Variable decimal : Z -> bool.

(** [r'^\+?[1-9]\d{1,14}$'] *)
Definition PHONE_PATTERN : list re_op :=
  [AT_BEGINNING; MAX_REPEAT 0 (Some 1%nat) (fun c => c =? ord "+");
   IN (in_range (ord "1") (ord "9")); MAX_REPEAT 1 (Some 14%nat) decimal; AT_END].

Definition validate_phone (phone : list Z) : bool := re_match PHONE_PATTERN phone.

End Phone.

(** ** Sample decrypted bodies and webhook notifications *)
Module Demo.

(** A stand-in for the interpreter's [repr] of floats, lists and dicts. *)
Definition repr_compound (v : json) : list Z := lit "<repr>".

Definition exchange (screen : string) (data : json) : json :=
  JDict [(lit "version", JStr (lit "7.2"));
         (lit "action", JStr (lit "data_exchange"));
         (lit "screen", JStr (lit screen));
         (lit "flow_token", JStr (lit "token-1"));
         (lit "data", data)].

(** The details form sent without a name. *)
Definition details_without_name : json :=
  exchange "DETAILS" (JDict [(lit "email", JStr (lit "a@b.example"))]).

(** The welcome form with a string where the form data should be. *)
Definition welcome_with_bad_data : json := exchange "WELCOME" (JStr (lit "oops")).

(** A notification carrying two text messages, and one whose second
    message is a bare string. *)
Definition text_message (sender body : string) : json :=
  JDict [(lit "from", JStr (lit sender));
         (lit "text", JDict [(lit "body", JStr (lit body))])].

Definition notification (messages : list json) : json :=
  JDict [(lit "entry",
          JList [JDict [(lit "changes",
                         JList [JDict [(lit "value",
                                        JDict [(lit "messages", JList messages)])]])]])].

Definition two_messages : list json :=
  [text_message "15551230001" "hello"; text_message "15551230002" "world"].

Definition query (mode token challenge : string) : gmap (list Z) (list Z) :=
  <[lit "hub.mode" := lit mode]>
    (<[lit "hub.verify_token" := lit token]>
       (<[lit "hub.challenge" := lit challenge]> ∅)).

(** The ASCII digits and the Arabic-Indic digits: part of what [\d]
    matches. *)
Definition decimal (c : Z) : bool := in_range 48 57 c || in_range 1632 1641 c.

End Demo.

(** * Properties *)

(** ** Bytes *)

Lemma byteb_spec (b : Z) : byteb b = true <-> is_byte b.
Proof. unfold byteb, is_byte. rewrite andb_true_iff. lia. Qed.

Lemma bytesb_spec (l : list Z) : bytesb l = true <-> is_bytes l.
Proof.
  unfold bytesb, is_bytes. rewrite forallb_forall, List.Forall_forall.
  split; intros H x Hx; apply byteb_spec, H, Hx.
Qed.

Lemma is_bytes_app (a b : list Z) : is_bytes (a ++ b) <-> is_bytes a /\ is_bytes b.
Proof. unfold is_bytes. apply Forall_app. Qed.

Lemma is_bytes_cons (x : Z) (l : list Z) : is_bytes (x :: l) <-> is_byte x /\ is_bytes l.
Proof. unfold is_bytes. apply Forall_cons. Qed.

(** Every byte is one of the 256 values of [seq 0 256]: a property of
    bytes that a computation checks on all of them holds of each. *)
Lemma byte_cases (P : Z -> bool) :
  forallb P (List.map Z.of_nat (seq 0 256)) = true ->
  forall b, is_byte b -> P b = true.
Proof.
  intros H b Hb. rewrite forallb_forall in H. apply H.
  apply in_map_iff. exists (Z.to_nat b). split; [unfold is_byte in Hb; lia|].
  apply in_seq. unfold is_byte in Hb. lia.
Qed.

Lemma byte_cases2 (P : Z -> Z -> bool) :
  forallb (fun a => forallb (P a) (List.map Z.of_nat (seq 0 256)))
    (List.map Z.of_nat (seq 0 256)) = true ->
  forall a b, is_byte a -> is_byte b -> P a b = true.
Proof.
  intros H a b Ha Hb.
  apply (byte_cases (P a)); [|exact Hb].
  apply (byte_cases (fun a => forallb (P a) (List.map Z.of_nat (seq 0 256)))); assumption.
Qed.

(** ** The IV transform *)

Lemma flip_byte_xor (b : Z) : is_byte b -> Z.land (Z.lnot b) 255 = Z.lxor b 255.
Proof.
  intros Hb. apply Z.eqb_eq.
  apply (byte_cases (fun b => Z.land (Z.lnot b) 255 =? Z.lxor b 255)); [|exact Hb].
  vm_compute. reflexivity.
Qed.

Lemma flip_byte_involutive (b : Z) :
  is_byte b -> Z.land (Z.lnot (Z.land (Z.lnot b) 255)) 255 = b.
Proof.
  intros Hb. apply Z.eqb_eq.
  apply (byte_cases (fun b => Z.land (Z.lnot (Z.land (Z.lnot b) 255)) 255 =? b));
    [|exact Hb].
  vm_compute. reflexivity.
Qed.

Lemma flip_byte_is_byte (b : Z) : is_byte (Z.land (Z.lnot b) 255).
Proof.
  unfold is_byte. change 255 with (Z.ones 8). rewrite Z.land_ones by lia.
  pose proof (Z.mod_pos_bound (Z.lnot b) (2 ^ 8)). lia.
Qed.

Lemma flip_iv_is_bytes (iv : list Z) : is_bytes (flip_iv iv).
Proof.
  unfold is_bytes, flip_iv. apply List.Forall_forall. intros x Hx.
  apply in_map_iff in Hx as (b & <- & _). apply flip_byte_is_byte.
Qed.

Lemma flip_iv_length (iv : list Z) : length (flip_iv iv) = length iv.
Proof. unfold flip_iv. apply length_map. Qed.

Lemma flip_iv_xor (iv : list Z) :
  is_bytes iv -> flip_iv iv = List.map (fun b => Z.lxor b 255) iv.
Proof.
  unfold flip_iv. induction 1 as [|b iv Hb _ IH]; [reflexivity|].
  cbn [List.map]. rewrite IH, flip_byte_xor by exact Hb. reflexivity.
Qed.

Lemma flip_iv_involutive (iv : list Z) : is_bytes iv -> flip_iv (flip_iv iv) = iv.
Proof.
  unfold flip_iv. induction 1 as [|b iv Hb _ IH]; [reflexivity|].
  cbn [List.map]. rewrite IH, flip_byte_involutive by exact Hb. reflexivity.
Qed.

(** ** Base64 *)

Lemma sextet_cases (P : Z -> bool) :
  forallb P (List.map Z.of_nat (seq 0 64)) = true ->
  forall v, sextet v -> P v = true.
Proof.
  intros H v Hv. rewrite forallb_forall in H. apply H.
  apply in_map_iff. exists (Z.to_nat v). unfold sextet in Hv.
  split; [lia|]. apply in_seq. lia.
Qed.

Lemma a2b_b2a (v : Z) : sextet v -> a2b (b2a v) = Some v.
Proof.
  intros Hv.
  apply (sextet_cases (fun v => bool_decide (a2b (b2a v) = Some v))) in Hv.
  - apply bool_decide_eq_true in Hv. exact Hv.
  - vm_compute. reflexivity.
Qed.

Lemma b2a_not_pad (v : Z) : sextet v -> (b2a v =? BASE64_PAD) = false.
Proof.
  intros Hv.
  apply (sextet_cases (fun v => negb (b2a v =? BASE64_PAD))) in Hv.
  - apply negb_true_iff in Hv. exact Hv.
  - vm_compute. reflexivity.
Qed.

Lemma b2a_ascii (v : Z) : 0 <= b2a v < 128.
Proof.
  unfold b2a. generalize (Z.to_nat v). intros n.
  destruct (Nat.lt_ge_cases n (length b64_alphabet)) as [Hlt|Hge].
  - assert (H : forallb (fun c => (0 <=? c) && (c <? 128)) b64_alphabet = true)
      by (vm_compute; reflexivity).
    rewrite forallb_forall in H.
    specialize (H _ (nth_In b64_alphabet 0 Hlt)).
    apply andb_true_iff in H. lia.
  - rewrite nth_overflow by exact Hge. lia.
Qed.

(** One step of the decoder on a character of the alphabet, at each
    position of the quad. *)
Section DecoderSteps.
Variables (v : Z) (s : list Z) (leftchar pads : Z) (bin : list Z).
Hypothesis Hv : sextet v.

Lemma a2b_base64_loop_0 :
  a2b_base64_loop (b2a v :: s) 0 leftchar pads bin = a2b_base64_loop s 1 v 0 bin.
Proof. cbn [a2b_base64_loop]. rewrite (b2a_not_pad v Hv), (a2b_b2a v Hv). reflexivity. Qed.

Lemma a2b_base64_loop_1 :
  a2b_base64_loop (b2a v :: s) 1 leftchar pads bin =
  a2b_base64_loop s 2 (Z.land v 15) 0
    (bin ++ [Z.land (Z.lor (Z.shiftl leftchar 2) (Z.shiftr v 4)) 255]).
Proof. cbn [a2b_base64_loop]. rewrite (b2a_not_pad v Hv), (a2b_b2a v Hv). reflexivity. Qed.

Lemma a2b_base64_loop_2 :
  a2b_base64_loop (b2a v :: s) 2 leftchar pads bin =
  a2b_base64_loop s 3 (Z.land v 3) 0
    (bin ++ [Z.land (Z.lor (Z.shiftl leftchar 4) (Z.shiftr v 2)) 255]).
Proof. cbn [a2b_base64_loop]. rewrite (b2a_not_pad v Hv), (a2b_b2a v Hv). reflexivity. Qed.

Lemma a2b_base64_loop_3 :
  a2b_base64_loop (b2a v :: s) 3 leftchar pads bin =
  a2b_base64_loop s 0 0 0 (bin ++ [Z.land (Z.lor (Z.shiftl leftchar 6) v) 255]).
Proof. cbn [a2b_base64_loop]. rewrite (b2a_not_pad v Hv), (a2b_b2a v Hv). reflexivity. Qed.

End DecoderSteps.

Lemma sextetb_spec (v : Z) : sextetb v = true -> sextet v.
Proof. unfold sextetb, sextet. rewrite andb_true_iff. lia. Qed.

Lemma s1_sextet (a : Z) : is_byte a -> sextet (s1 a).
Proof.
  intros Ha. apply sextetb_spec.
  apply (byte_cases (fun a => sextetb (s1 a))); [vm_compute; reflexivity|exact Ha].
Qed.

Lemma s4_sextet (c : Z) : is_byte c -> sextet (s4 c).
Proof.
  intros Hc. apply sextetb_spec.
  apply (byte_cases (fun c => sextetb (s4 c))); [vm_compute; reflexivity|exact Hc].
Qed.

Lemma s2_sextet (a b : Z) : is_byte a -> is_byte b -> sextet (s2 a b).
Proof.
  intros Ha Hb. apply sextetb_spec.
  apply (byte_cases2 (fun a b => sextetb (s2 a b))); [vm_compute; reflexivity|..];
    assumption.
Qed.

Lemma s3_sextet (b c : Z) : is_byte b -> is_byte c -> sextet (s3 b c).
Proof.
  intros Hb Hc. apply sextetb_spec.
  apply (byte_cases2 (fun b c => sextetb (s3 b c))); [vm_compute; reflexivity|..];
    assumption.
Qed.

(** The three bytes that the decoder rebuilds from the sextets. *)
Lemma first_byte (a b : Z) :
  is_byte a -> is_byte b ->
  Z.land (Z.lor (Z.shiftl (s1 a) 2) (Z.shiftr (s2 a b) 4)) 255 = a.
Proof.
  intros Ha Hb. apply Z.eqb_eq.
  apply (byte_cases2 (fun a b =>
    Z.land (Z.lor (Z.shiftl (s1 a) 2) (Z.shiftr (s2 a b) 4)) 255 =? a));
    [vm_compute; reflexivity|..]; assumption.
Qed.

Lemma second_byte (a b c : Z) :
  is_byte a -> is_byte b -> is_byte c ->
  Z.land (Z.lor (Z.shiftl (Z.land (s2 a b) 15) 4) (Z.shiftr (s3 b c) 2)) 255 = b.
Proof.
  intros Ha Hb Hc.
  assert (H1 : Z.land (s2 a b) 15 = Z.shiftr b 4).
  { apply Z.eqb_eq.
    apply (byte_cases2 (fun a b => Z.land (s2 a b) 15 =? Z.shiftr b 4));
      [vm_compute; reflexivity|..]; assumption. }
  assert (H2 : Z.shiftr (s3 b c) 2 = Z.land b 15).
  { apply Z.eqb_eq.
    apply (byte_cases2 (fun b c => Z.shiftr (s3 b c) 2 =? Z.land b 15));
      [vm_compute; reflexivity|..]; assumption. }
  rewrite H1, H2. apply Z.eqb_eq.
  apply (byte_cases (fun b =>
    Z.land (Z.lor (Z.shiftl (Z.shiftr b 4) 4) (Z.land b 15)) 255 =? b));
    [vm_compute; reflexivity|assumption].
Qed.

Lemma third_byte (b c : Z) :
  is_byte b -> is_byte c ->
  Z.land (Z.lor (Z.shiftl (Z.land (s3 b c) 3) 6) (s4 c)) 255 = c.
Proof.
  intros Hb Hc. apply Z.eqb_eq.
  apply (byte_cases2 (fun b c =>
    Z.land (Z.lor (Z.shiftl (Z.land (s3 b c) 3) 6) (s4 c)) 255 =? c));
    [vm_compute; reflexivity|..]; assumption.
Qed.

Lemma zero_is_byte : is_byte 0.
Proof. unfold is_byte. lia. Qed.

(** The encoder, one group at a time. *)
Lemma b2a_base64_1 (a : Z) :
  b2a_base64 [a] = [b2a (s1 a); b2a (s2 a 0); BASE64_PAD; BASE64_PAD].
Proof. cbn [b2a_base64]. unfold s1, s2. rewrite Z.shiftr_0_l, Z.lor_0_r. reflexivity. Qed.

Lemma b2a_base64_2 (a b : Z) :
  b2a_base64 [a; b] = [b2a (s1 a); b2a (s2 a b); b2a (s3 b 0); BASE64_PAD].
Proof. cbn [b2a_base64]. unfold s1, s2, s3. rewrite Z.shiftr_0_l, Z.lor_0_r. reflexivity. Qed.

Lemma b2a_base64_3 (a b c : Z) (rest : list Z) :
  b2a_base64 (a :: b :: c :: rest) =
  b2a (s1 a) :: b2a (s2 a b) :: b2a (s3 b c) :: b2a (s4 c) :: b2a_base64 rest.
Proof. reflexivity. Qed.

(** Decoding what the encoder produced gives the bytes back, whatever
    was decoded before. *)
Lemma a2b_base64_loop_b2a (n : nat) :
  forall data bin, (length data <= n)%nat -> is_bytes data ->
  a2b_base64_loop (b2a_base64 data) 0 0 0 bin = Ok (bin ++ data).
Proof.
  induction n as [n IH] using lt_wf_ind. intros data bin Hlen Hdata.
  destruct data as [|a [|b [|c rest]]].
  - cbn. rewrite app_nil_r. reflexivity.
  - apply is_bytes_cons in Hdata as [Ha _].
    pose proof zero_is_byte as H0.
    rewrite b2a_base64_1.
    rewrite a2b_base64_loop_0 by (apply s1_sextet; exact Ha).
    rewrite a2b_base64_loop_1 by (apply s2_sextet; assumption).
    rewrite first_byte by assumption. reflexivity.
  - apply is_bytes_cons in Hdata as [Ha Hdata].
    apply is_bytes_cons in Hdata as [Hb _].
    pose proof zero_is_byte as H0.
    rewrite b2a_base64_2.
    rewrite a2b_base64_loop_0 by (apply s1_sextet; exact Ha).
    rewrite a2b_base64_loop_1 by (apply s2_sextet; assumption).
    rewrite a2b_base64_loop_2 by (apply s3_sextet; assumption).
    rewrite first_byte, second_byte by assumption.
    rewrite <- app_assoc. reflexivity.
  - apply is_bytes_cons in Hdata as [Ha Hdata].
    apply is_bytes_cons in Hdata as [Hb Hdata].
    apply is_bytes_cons in Hdata as [Hc Hrest].
    rewrite b2a_base64_3.
    rewrite a2b_base64_loop_0 by (apply s1_sextet; exact Ha).
    rewrite a2b_base64_loop_1 by (apply s2_sextet; assumption).
    rewrite a2b_base64_loop_2 by (apply s3_sextet; assumption).
    rewrite a2b_base64_loop_3 by (apply s4_sextet; assumption).
    rewrite first_byte, second_byte, third_byte by assumption.
    cbn [length] in Hlen.
    rewrite (IH (length rest)) by (lia || assumption).
    rewrite <- !app_assoc. reflexivity.
Qed.

Lemma a2b_base64_b2a_base64 (data : list Z) :
  is_bytes data -> a2b_base64 (b2a_base64 data) = Ok data.
Proof.
  intros Hdata. unfold a2b_base64.
  rewrite (a2b_base64_loop_b2a (length data)) by (lia || assumption). reflexivity.
Qed.

Lemma b2a_base64_isascii (data : list Z) : isascii (b2a_base64 data) = true.
Proof.
  assert (Hc : forall v, (0 <=? b2a v) && (b2a v <? 128) = true).
  { intros v. pose proof (b2a_ascii v). apply andb_true_iff. lia. }
  induction data as [data IH] using (induction_ltof1 _ (@length Z)).
  unfold ltof in IH.
  destruct data as [|a [|b [|c rest]]]; [reflexivity|..].
  - rewrite b2a_base64_1. cbn [isascii forallb]. rewrite !Hc. reflexivity.
  - rewrite b2a_base64_2. cbn [isascii forallb]. rewrite !Hc. reflexivity.
  - rewrite b2a_base64_3. cbn [isascii forallb]. rewrite !Hc. cbn [andb].
    apply IH. cbn [length]. lia.
Qed.

(** [base64.b64decode] undoes [base64.b64encode]. *)
Lemma b64decode_b64encode (data : list Z) :
  is_bytes data -> b64decode (JStr (b64encode data)) = Ok data.
Proof.
  intros Hdata. unfold b64decode, b64encode.
  rewrite b2a_base64_isascii. apply a2b_base64_b2a_base64. exact Hdata.
Qed.

Lemma utf8_decode_ascii (s : list Z) : isascii s = true -> utf8_decode s = Some s.
Proof.
  induction s as [|c s IH]; [reflexivity|].
  cbn [isascii forallb]. intros H. apply andb_true_iff in H as [Hc Hs].
  cbn [utf8_decode]. unfold in_range.
  replace ((0 <=? c) && (c <=? 127)) with true
    by (symmetry; apply andb_true_iff in Hc; apply andb_true_iff; lia).
  rewrite (IH Hs). reflexivity.
Qed.

Lemma utf8_encode_ascii (s : list Z) : isascii s = true -> utf8_encode s = Some s.
Proof.
  induction s as [|c s IH]; [reflexivity|].
  cbn [isascii forallb]. intros H. apply andb_true_iff in H as [Hc Hs].
  cbn [utf8_encode]. unfold encode_code_point, in_range.
  replace ((0 <=? c) && (c <=? 127)) with true
    by (symmetry; apply andb_true_iff in Hc; apply andb_true_iff; lia).
  rewrite (IH Hs). reflexivity.
Qed.

Lemma b64encode_decode_utf8 (data : list Z) :
  bytes_decode_utf8 (b64encode data) = Ok (b64encode data).
Proof.
  unfold bytes_decode_utf8, b64encode.
  rewrite utf8_decode_ascii by apply b2a_base64_isascii. reflexivity.
Qed.

Lemma isascii_is_bytes (s : list Z) : isascii s = true -> is_bytes s.
Proof.
  unfold isascii, is_bytes. rewrite forallb_forall, List.Forall_forall.
  intros H x Hx. specialize (H x Hx). apply andb_true_iff in H.
  unfold is_byte. lia.
Qed.

Lemma str_encode_utf8_ascii (s : list Z) : isascii s = true -> str_encode_utf8 s = Ok s.
Proof. intros H. unfold str_encode_utf8. rewrite (utf8_encode_ascii s H). reflexivity. Qed.

(** ** Slices *)

Lemma slice_to_neg_app {A : Type} (n : nat) (body tag : list A) :
  length tag = n -> slice_to_neg n (body ++ tag) = body.
Proof.
  intros <-. unfold slice_to_neg. rewrite length_app.
  replace (length body + length tag - length tag)%nat with (length body) by lia.
  apply take_app_length.
Qed.

Lemma slice_from_neg_app {A : Type} (n : nat) (body tag : list A) :
  length tag = n -> slice_from_neg n (body ++ tag) = tag.
Proof.
  intros <-. unfold slice_from_neg. rewrite length_app.
  replace (length body + length tag - length tag)%nat with (length body) by lia.
  apply drop_app_length.
Qed.

Lemma slice_from_neg_short {A : Type} (n : nat) (b : list A) :
  (length b < n)%nat -> slice_from_neg n b = b.
Proof.
  intros H. unfold slice_from_neg.
  replace (length b - n)%nat with O by lia. reflexivity.
Qed.

Lemma slice_from_neg_length {A : Type} (n : nat) (b : list A) :
  length (slice_from_neg n b) = Nat.min n (length b).
Proof. unfold slice_from_neg. rewrite length_drop. lia. Qed.

(** ** The instance [Bench] keeps the contract *)

Lemma clamp_isascii (l : list Z) : isascii (List.map Bench.clamp l) = true.
Proof.
  induction l as [|c l IH]; [reflexivity|].
  cbn [List.map isascii forallb]. fold (isascii (List.map Bench.clamp l)).
  rewrite IH, andb_true_r. unfold Bench.clamp.
  destruct ((0 <=? c) && (c <? 128)) eqn:E; [exact E|reflexivity].
Qed.

Lemma shift_stream_is_bytes (seed : Z) (data : list Z) :
  is_bytes (Bench.shift_stream seed data).
Proof.
  revert seed. induction data as [|x data IH]; intros seed; cbn [Bench.shift_stream].
  - constructor.
  - apply is_bytes_cons. split; [|apply IH].
    unfold is_byte. pose proof (Z.mod_pos_bound (x + seed) 256). lia.
Qed.

Lemma unshift_shift_stream (seed : Z) (data : list Z) :
  is_bytes data -> Bench.unshift_stream seed (Bench.shift_stream seed data) = data.
Proof.
  intros H. revert seed. induction H as [|x data Hx _ IH]; intros seed; [reflexivity|].
  cbn [Bench.shift_stream Bench.unshift_stream]. rewrite IH. f_equal.
  rewrite Zminus_mod_idemp_l. replace (x + seed - seed) with x by lia.
  apply Z.mod_small. exact Hx.
Qed.

Lemma make_tag_is_bytes (key iv c : list Z) : is_bytes (Bench.make_tag key iv c).
Proof.
  unfold Bench.make_tag, is_bytes. apply List.Forall_forall. intros x Hx.
  apply repeat_spec in Hx. subst x. unfold is_byte.
  pose proof (Z.mod_pos_bound (Bench.total key + Bench.total iv + Bench.total c) 256). lia.
Qed.

Lemma mac_is_bytes (key message : list Z) : is_bytes (Bench.mac key message).
Proof.
  unfold Bench.mac, is_bytes.
  apply List.Forall_forall. intros x Hx. apply in_map_iff in Hx as (i & <- & _).
  unfold is_byte.
  pose proof (Z.mod_pos_bound
                (31 * Bench.total key + Bench.total message + Z.of_nat i) 256).
  lia.
Qed.

#[export] Instance bench_contract : LibsContract Bench.libs.
Proof.
  split.
  - intros j. apply clamp_isascii.
  - intros key iv plain _ _ _. split; [apply shift_stream_is_bytes|apply make_tag_is_bytes].
  - intros key iv plain _ _. apply repeat_length.
  - intros key message. apply mac_is_bytes.
  - intros key message. reflexivity.
  - intros key iv plain _ _ Hplain. cbn. unfold Bench.unseal.
    rewrite bool_decide_eq_true_2 by reflexivity.
    rewrite unshift_shift_stream by exact Hplain. reflexivity.
Qed.

(** ** [encrypt_response] *)

Section EncryptResponse.
Context {L : Libs} {C : LibsContract L}.

Lemma gcm_iv_ok_flip (iv : list Z) : gcm_iv_ok (flip_iv iv) = gcm_iv_ok iv.
Proof. unfold gcm_iv_ok. rewrite flip_iv_length. reflexivity. Qed.

(** With a key and an IV that the cipher accepts, [encrypt_response]
    returns the base64 text of ciphertext followed by tag. *)
Lemma encrypt_response_ok (response : json) (key iv : list Z) :
  aes_key_ok key = true -> gcm_iv_ok iv = true ->
  encrypt_response response key iv =
  Ok (b64encode (fst (aes_gcm_encrypt key (flip_iv iv) (json_dumps response))
                 ++ snd (aes_gcm_encrypt key (flip_iv iv) (json_dumps response)))).
Proof.
  intros Hk Hiv. unfold encrypt_response, Cipher_AES_GCM.
  rewrite Hk, gcm_iv_ok_flip, Hiv. cbn [negb result_bind].
  rewrite str_encode_utf8_ascii by apply json_dumps_ascii. cbn [result_bind].
  destruct (aes_gcm_encrypt key (flip_iv iv) (json_dumps response)) as [c t].
  cbn [fst snd]. apply b64encode_decode_utf8.
Qed.

End EncryptResponse.



(** C3.  The IV that [encrypt_response] uses is the bytewise complement
    of the IV it is given - every byte XORed with 0xFF - and the flip is
    its own inverse: [flip_iv (flip_iv iv) = iv] for every byte string
    [iv]. *)
Theorem flip_iv_complement_involutive (L : Libs) (C : LibsContract L)
    (m : json) (k iv : list Z) :
  is_bytes iv -> aes_key_ok k = true -> gcm_iv_ok iv = true ->
  let complemented := List.map (fun b => Z.lxor b 255) iv in
  flip_iv iv = complemented
  /\ flip_iv (flip_iv iv) = iv
  /\ encrypt_response m k iv =
     Ok (b64encode (fst (aes_gcm_encrypt k complemented (json_dumps m))
                    ++ snd (aes_gcm_encrypt k complemented (json_dumps m)))).
Proof.
  intros Hbytes Hk Hiv complemented. subst complemented.
  rewrite <- (flip_iv_xor iv Hbytes).
  split; [reflexivity|]. split; [apply flip_iv_involutive; exact Hbytes|].
  apply encrypt_response_ok; assumption.
Qed.

Lemma flip_iv_complement_involutive_witness :
  flip_iv Bench.iv = [1; 35; 69; 103; 137; 171; 205; 239;
                      1; 35; 69; 103; 137; 171; 205; 239]
  /\ flip_iv (flip_iv Bench.iv) = Bench.iv.
Proof.
  pose proof (flip_iv_complement_involutive Bench.libs bench_contract
                Bench.status_active Bench.k Bench.iv) as H.
  assert (Hb : is_bytes Bench.iv) by (apply bytesb_spec; reflexivity).
  specialize (H Hb eq_refl eq_refl). cbv zeta in H.
  destruct H as (H1 & H2 & _). split; [rewrite H1; reflexivity|exact H2].
Defined.

(** ** [decrypt_request] *)

Section DecryptRequest.
Context {L : Libs}.
Variables (body : gmap (list Z) json) (private_pem passphrase : list Z).

(** The three ways through [decrypt_request]: the key does not load, the
    key loads and the unwrap raises, the key loads and the unwrap
    returns. *)
Lemma decrypt_request_load_raises (e : exn) :
  load_private_key private_pem passphrase = Raise e ->
  decrypt_request body private_pem passphrase = (Raise e, []).
Proof. intros H. unfold decrypt_request, lift, bind. rewrite H. reflexivity. Qed.

Lemma decrypt_request_unwrap_raises (sk : private_key) (e : exn) :
  load_private_key private_pem passphrase = Ok sk ->
  unwrap_aes_key sk (get body "encrypted_aes_key") = Raise e ->
  decrypt_request body private_pem passphrase =
  (Raise (FlowEndpointException 421 KEY_UNWRAP_MESSAGE),
   [Log ERROR "Decryption error: " (Some e)]).
Proof.
  intros H1 H2. unfold decrypt_request, decrypt_aes_key, try_except, lift, bind.
  rewrite H1, H2. reflexivity.
Qed.

Lemma decrypt_request_unwrapped (sk : private_key) (key : list Z) :
  load_private_key private_pem passphrase = Ok sk ->
  unwrap_aes_key sk (get body "encrypted_aes_key") = Ok key ->
  decrypt_request body private_pem passphrase =
  (decrypt_flow_data key (get body "encrypted_flow_data") (get body "initial_vector"),
   []).
Proof.
  intros H1 H2. unfold decrypt_request, decrypt_aes_key, try_except, lift, bind.
  rewrite H1, H2. reflexivity.
Qed.

End DecryptRequest.

(** Whatever the libraries and the interpreter raise is not a
    [FlowEndpointException]. *)
Lemma raise_py_inv {A : Type} (pe : py_exn) (e : exn) :
  @raise_py A pe = Raise e -> e = PyExn pe.
Proof. unfold raise_py. congruence. Qed.

Lemma from_lib_raises {A : Type} (r : py_exn + A) (e : exn) :
  from_lib r = Raise e -> exists pe, e = PyExn pe.
Proof. destruct r as [pe|a]; cbn; [|discriminate]. intros [= <-]. eauto. Qed.

Lemma a2b_base64_loop_raises (s : list Z) :
  forall quad_pos leftchar pads bin e,
  a2b_base64_loop s quad_pos leftchar pads bin = Raise e -> e = PyExn BinasciiError.
Proof.
  induction s as [|c s IH]; intros q l p bin e; cbn [a2b_base64_loop].
  - destruct (q =? 0); [discriminate|]. intros H. apply raise_py_inv in H. exact H.
  - destruct (c =? BASE64_PAD).
    + destruct ((2 <=? q) && (4 <=? q + (p + 1))); [discriminate|]. apply IH.
    + destruct (a2b c) as [v|]; [|apply IH].
      destruct (q =? 0); [apply IH|].
      destruct (q =? 1); [apply IH|].
      destruct (q =? 2); apply IH.
Qed.

Lemma b64decode_raises (v : json) (e : exn) :
  b64decode v = Raise e -> exists pe, e = PyExn pe.
Proof.
  destruct v; cbn [b64decode]; try (intros H; apply raise_py_inv in H; eauto).
  destruct (isascii s); [|intros H; apply raise_py_inv in H; eauto].
  intros H. apply a2b_base64_loop_raises in H. eauto.
Qed.

Lemma Cipher_AES_GCM_raises (key iv : list Z) (tag : option (list Z)) (e : exn) :
  Cipher_AES_GCM key iv tag = Raise e -> e = PyExn ValueError.
Proof.
  unfold Cipher_AES_GCM.
  destruct (negb (aes_key_ok key)); [apply raise_py_inv|].
  destruct (negb (gcm_iv_ok iv)); [apply raise_py_inv|].
  destruct tag as [t|]; [|discriminate].
  destruct (gcm_tag_ok t); [discriminate|apply raise_py_inv].
Qed.

Lemma str_encode_utf8_raises (s : list Z) (e : exn) :
  str_encode_utf8 s = Raise e -> e = PyExn UnicodeEncodeError.
Proof. unfold str_encode_utf8. destruct (utf8_encode s); [discriminate|apply raise_py_inv]. Qed.

Lemma bytes_decode_utf8_raises (b : list Z) (e : exn) :
  bytes_decode_utf8 b = Raise e -> e = PyExn UnicodeDecodeError.
Proof. unfold bytes_decode_utf8. destruct (utf8_decode b); [discriminate|apply raise_py_inv]. Qed.

Section LibraryExceptions.
Context {L : Libs}.

Lemma load_private_key_raises (private_pem passphrase : list Z) (e : exn) :
  load_private_key private_pem passphrase = Raise e -> exists pe, e = PyExn pe.
Proof.
  unfold load_private_key. intros H.
  destruct passphrase as [|c p]; cbn [result_bind] in H.
  - destruct (str_encode_utf8 private_pem) eqn:E; cbn [result_bind] in H.
    + apply from_lib_raises in H. exact H.
    + injection H as <-. apply str_encode_utf8_raises in E. eauto.
  - destruct (str_encode_utf8 (c :: p)) eqn:E0; cbn [result_bind] in H.
    + destruct (str_encode_utf8 private_pem) eqn:E; cbn [result_bind] in H.
      * apply from_lib_raises in H. exact H.
      * injection H as <-. apply str_encode_utf8_raises in E. eauto.
    + injection H as <-. apply str_encode_utf8_raises in E0. eauto.
Qed.

Lemma decryptor_run_raises (key iv tag data : list Z) (e : exn) :
  decryptor_run key iv tag data = Raise e -> e = PyExn InvalidTag.
Proof.
  unfold decryptor_run. destruct (aes_gcm_decrypt key iv data tag); [discriminate|].
  apply raise_py_inv.
Qed.

Lemma decrypt_flow_data_raises (key : list Z) (flow vector : json) (e : exn) :
  decrypt_flow_data key flow vector = Raise e -> exists pe, e = PyExn pe.
Proof.
  unfold decrypt_flow_data. intros H.
  destruct (b64decode flow) as [buffer|e1] eqn:E1; cbn [result_bind] in H;
    [|injection H as <-; apply b64decode_raises in E1; exact E1].
  destruct (b64decode vector) as [ivb|e2] eqn:E2; cbn [result_bind] in H;
    [|injection H as <-; apply b64decode_raises in E2; exact E2].
  destruct (Cipher_AES_GCM key ivb _) as [[]|e3] eqn:E3; cbn [result_bind] in H;
    [|injection H as <-; apply Cipher_AES_GCM_raises in E3; eauto].
  destruct (decryptor_run key ivb _ _) as [data|e4] eqn:E4; cbn [result_bind] in H;
    [|injection H as <-; apply decryptor_run_raises in E4; eauto].
  destruct (bytes_decode_utf8 data) as [text|e5] eqn:E5; cbn [result_bind] in H;
    [|injection H as <-; apply bytes_decode_utf8_raises in E5; eauto].
  destruct (from_lib (json_loads text)) as [parsed|e6] eqn:E6; cbn [result_bind] in H;
    [discriminate|injection H as <-; apply from_lib_raises in E6; exact E6].
Qed.

End LibraryExceptions.

(** ** The handler's answer to a failed decryption *)

Section DecryptOrReply.
Context {L : Libs}.
Variables (PASSPHRASE private_pem : list Z) (kvs : list (list Z * json)).

Lemma decrypt_or_reply_flow_endpoint_exception (sc : Z) (m : string)
    (logs : list log_record) :
  decrypt_request (list_to_map kvs) private_pem PASSPHRASE =
    (Raise (FlowEndpointException sc m), logs) ->
  fst (decrypt_or_reply PASSPHRASE (JDict kvs) private_pem) = Ok (inl (Response sc [])).
Proof. intros H. unfold decrypt_or_reply, decrypt_parsed. rewrite H. reflexivity. Qed.

Lemma decrypt_or_reply_other_exception (pe : py_exn) (logs : list log_record) :
  decrypt_request (list_to_map kvs) private_pem PASSPHRASE = (Raise (PyExn pe), logs) ->
  fst (decrypt_or_reply PASSPHRASE (JDict kvs) private_pem) = Ok (inl (Response 500 [])).
Proof. intros H. unfold decrypt_or_reply, decrypt_parsed. rewrite H. reflexivity. Qed.

End DecryptOrReply.

(** C1, as amended.  For every body, private key and passphrase:
    when the private key loads and the key unwrap - base64-decoding the
    wrapped key and decrypting it with RSA-OAEP - fails, whatever the
    reason (wrong key, corrupted key blob, field absent),
    [decrypt_request] fails with [FlowEndpointException] carrying status
    421 and with no other exception, and the cause is logged; when the
    private key does not load (malformed key, passphrase mismatch),
    [decrypt_request] fails with the loader's own exception, which is
    not a [FlowEndpointException]; when both succeed no
    [FlowEndpointException] is raised at all. *)
Theorem decrypt_request_key_unwrap_error (L : Libs)
    (body : gmap (list Z) json) (private_pem passphrase : list Z) :
  match load_private_key private_pem passphrase with
  | Raise e =>
    decrypt_request body private_pem passphrase = (Raise e, [])
    /\ is_flow_endpoint_exception e = false
  | Ok sk =>
    match unwrap_aes_key sk (get body "encrypted_aes_key") with
    | Raise e =>
      decrypt_request body private_pem passphrase =
      (Raise (FlowEndpointException 421 KEY_UNWRAP_MESSAGE),
       [Log ERROR "Decryption error: " (Some e)])
    | Ok key =>
      forall e, fst (decrypt_request body private_pem passphrase) = Raise e ->
                is_flow_endpoint_exception e = false
    end
  end.
Proof.
  destruct (load_private_key private_pem passphrase) as [sk|e] eqn:Hload.
  - destruct (unwrap_aes_key sk (get body "encrypted_aes_key")) as [key|e] eqn:Hun.
    + intros e He.
      rewrite (decrypt_request_unwrapped body private_pem passphrase sk key Hload Hun) in He.
      cbn [fst] in He. apply decrypt_flow_data_raises in He as [pe ->]. reflexivity.
    + apply (decrypt_request_unwrap_raises body private_pem passphrase sk e Hload Hun).
  - split; [apply decrypt_request_load_raises; exact Hload|].
    apply load_private_key_raises in Hload as [pe ->]. reflexivity.
Qed.

(** C1, the claim as stated fails: with the protected key of [Bench] and
    a passphrase that does not match, the key does not load, and
    [decrypt_request] raises the loader's [ValueError] instead of
    [FlowEndpointException(421)]; the handler answers 500.  With the
    matching passphrase the same request decrypts. *)
Lemma passphrase_mismatch_is_not_421 :
  @load_private_key Bench.libs Bench.protected_pem (lit "wrong")
    = Raise (PyExn ValueError)
  /\ @decrypt_request Bench.libs Bench.request Bench.protected_pem (lit "wrong")
    = (Raise (PyExn ValueError), [])
  /\ (forall m, fst (@decrypt_request Bench.libs Bench.request Bench.protected_pem
                       (lit "wrong"))
                <> Raise (FlowEndpointException 421 m))
  /\ fst (@decrypt_or_reply Bench.libs (lit "wrong")
            (JDict (map_to_list Bench.request)) Bench.protected_pem)
     = Ok (inl (Response 500 []))
  /\ fst (@decrypt_request Bench.libs Bench.request Bench.protected_pem Bench.passphrase)
     = Ok (Decrypted Bench.ping Bench.k Bench.iv).
Proof.
  split; [reflexivity|]. split; [reflexivity|].
  split; [intros m; vm_compute; discriminate|].
  split; vm_compute; reflexivity.
Qed.





(** ** Failures after the key unwrap *)

Section SymmetricStep.
Context {L : Libs}.

(** A payload shorter than the tag length is rejected when the cipher is
    set up, if the decoding of the IV has not failed before. *)
Lemma decrypt_flow_data_short_payload (key buffer : list Z) (flow vector : json) :
  b64decode flow = Ok buffer -> (length buffer < TAG_LENGTH)%nat ->
  decrypt_flow_data key flow vector =
  match b64decode vector with
  | Ok _ => Raise (PyExn ValueError)
  | Raise e => Raise e
  end.
Proof.
  intros Hflow Hshort. unfold decrypt_flow_data. rewrite Hflow. cbn [result_bind].
  destruct (b64decode vector) as [ivb|e]; cbn [result_bind]; [|reflexivity].
  rewrite (slice_from_neg_short TAG_LENGTH buffer Hshort).
  unfold Cipher_AES_GCM, gcm_tag_ok.
  destruct (negb (aes_key_ok key)); [reflexivity|].
  destruct (negb (gcm_iv_ok ivb)); [reflexivity|].
  replace (16 <=? length buffer)%nat with false
    by (symmetry; apply Nat.leb_gt; exact Hshort).
  reflexivity.
Qed.

End SymmetricStep.

(** C7, as amended.  For every envelope whose private key loads, whose
    key unwrap succeeds and whose base64-decoded payload is shorter than
    the 16-byte tag length, [decrypt_request] fails - it returns no
    result - with an exception of the libraries, [ValueError] from the
    cipher when the IV decodes, and never a [FlowEndpointException]; the
    handler catches it and answers with status 500. *)
Theorem decrypt_request_short_payload (L : Libs)
    (kvs : list (list Z * json)) (private_pem passphrase : list Z)
    (sk : private_key) (key buffer : list Z) :
  let body : gmap (list Z) json := list_to_map kvs in
  load_private_key private_pem passphrase = Ok sk ->
  unwrap_aes_key sk (get body "encrypted_aes_key") = Ok key ->
  b64decode (get body "encrypted_flow_data") = Ok buffer ->
  (length buffer < 16)%nat ->
  (exists pe,
     decrypt_request body private_pem passphrase = (Raise (PyExn pe), [])
     /\ (forall ivb, b64decode (get body "initial_vector") = Ok ivb -> pe = ValueError))
  /\ fst (decrypt_or_reply passphrase (JDict kvs) private_pem)
     = Ok (inl (Response 500 [])).
Proof.
  intros body Hload Hun Hflow Hshort.
  pose proof (decrypt_request_unwrapped body private_pem passphrase sk key Hload Hun) as Hreq.
  rewrite (decrypt_flow_data_short_payload key buffer _ _ Hflow Hshort) in Hreq.
  assert (H : exists pe,
     decrypt_request body private_pem passphrase = (Raise (PyExn pe), [])
     /\ (forall ivb, b64decode (get body "initial_vector") = Ok ivb -> pe = ValueError)).
  { destruct (b64decode (get body "initial_vector")) as [ivb|e] eqn:E.
    - exists ValueError. split; [exact Hreq|reflexivity].
    - apply b64decode_raises in E as Hpe. destruct Hpe as [pe ->].
      exists pe. split; [exact Hreq|discriminate]. }
  split; [exact H|]. destruct H as (pe & Hpe & _).
  apply (decrypt_or_reply_other_exception passphrase private_pem kvs pe [] Hpe).
Qed.

Lemma decrypt_request_short_payload_witness :
  (exists pe,
     @decrypt_request Bench.libs (list_to_map (map_to_list Bench.short_request))
       Bench.private_pem [] = (Raise (PyExn pe), [])
     /\ (forall ivb,
           b64decode (get (list_to_map (map_to_list Bench.short_request))
                        "initial_vector") = Ok ivb ->
           pe = ValueError))
  /\ fst (@decrypt_or_reply Bench.libs [] (JDict (map_to_list Bench.short_request))
            Bench.private_pem)
     = Ok (inl (Response 500 [])).
Proof.
  apply (decrypt_request_short_payload Bench.libs (map_to_list Bench.short_request)
           Bench.private_pem [] Bench.key_material Bench.k [1; 2; 3]).
  - reflexivity.
  - vm_compute. reflexivity.
  - vm_compute. reflexivity.
  - cbn. lia.
Defined.

(** C7, the claim as stated fails: a payload of three bytes makes
    [decrypt_request] raise the cipher's bare [ValueError], which is not
    a [FlowEndpointException], the only classified error of the code. *)
Lemma short_payload_is_unclassified :
  b64decode (get Bench.short_request "encrypted_flow_data") = Ok [1; 2; 3]
  /\ @decrypt_request Bench.libs Bench.short_request Bench.private_pem []
     = (Raise (PyExn ValueError), [])
  /\ is_flow_endpoint_exception (PyExn ValueError) = false.
Proof. vm_compute. repeat split; reflexivity. Qed.

Section SymmetricFailures.
Context {L : Libs}.
Variables (key buffer ivb : list Z) (flow vector : json).
Hypothesis Hflow : b64decode flow = Ok buffer.
Hypothesis Hvector : b64decode vector = Ok ivb.
Hypothesis Hcipher :
  Cipher_AES_GCM key ivb (Some (slice_from_neg TAG_LENGTH buffer)) = Ok tt.

(** A tag that does not authenticate the ciphertext: [InvalidTag]. *)
Lemma decrypt_flow_data_invalid_tag :
  aes_gcm_decrypt key ivb (slice_to_neg TAG_LENGTH buffer)
    (slice_from_neg TAG_LENGTH buffer) = None ->
  decrypt_flow_data key flow vector = Raise (PyExn InvalidTag).
Proof.
  intros H. unfold decrypt_flow_data. rewrite Hflow, Hvector. cbn [result_bind].
  rewrite Hcipher. cbn [result_bind]. unfold decryptor_run. rewrite H. reflexivity.
Qed.

(** An authenticated plaintext that is not UTF-8: [UnicodeDecodeError]. *)
Lemma decrypt_flow_data_not_utf8 (data : list Z) :
  aes_gcm_decrypt key ivb (slice_to_neg TAG_LENGTH buffer)
    (slice_from_neg TAG_LENGTH buffer) = Some data ->
  utf8_decode data = None ->
  decrypt_flow_data key flow vector = Raise (PyExn UnicodeDecodeError).
Proof.
  intros H Hd. unfold decrypt_flow_data. rewrite Hflow, Hvector. cbn [result_bind].
  rewrite Hcipher. cbn [result_bind]. unfold decryptor_run. rewrite H. cbn [result_bind].
  unfold bytes_decode_utf8. rewrite Hd. reflexivity.
Qed.

(** An authenticated text that [json.loads] rejects: the exception of
    [json.loads]. *)
Lemma decrypt_flow_data_not_json (data text : list Z) (pe : py_exn) :
  aes_gcm_decrypt key ivb (slice_to_neg TAG_LENGTH buffer)
    (slice_from_neg TAG_LENGTH buffer) = Some data ->
  utf8_decode data = Some text ->
  json_loads text = inl pe ->
  decrypt_flow_data key flow vector = Raise (PyExn pe).
Proof.
  intros H Hd Hj. unfold decrypt_flow_data. rewrite Hflow, Hvector. cbn [result_bind].
  rewrite Hcipher. cbn [result_bind]. unfold decryptor_run. rewrite H. cbn [result_bind].
  unfold bytes_decode_utf8. rewrite Hd. cbn [result_bind]. rewrite Hj. reflexivity.
Qed.

End SymmetricFailures.

(** C8, as amended.  For every envelope whose private key loads and whose
    key unwrap succeeds, any failure of the symmetric step (payload or
    IV that does not decode, arguments the cipher rejects, tag mismatch)
    and any failure to parse the authenticated plaintext as UTF-8 JSON
    makes [decrypt_request] fail with that very exception of the
    libraries, unchanged and unlogged: it is never a
    [FlowEndpointException] and the code gives it no classification of
    its own; the handler maps every such exception to the generic status
    500. *)
Theorem decrypt_request_symmetric_failure (L : Libs)
    (kvs : list (list Z * json)) (private_pem passphrase : list Z)
    (sk : private_key) (key : list Z) (e : exn) :
  let body : gmap (list Z) json := list_to_map kvs in
  load_private_key private_pem passphrase = Ok sk ->
  unwrap_aes_key sk (get body "encrypted_aes_key") = Ok key ->
  decrypt_flow_data key (get body "encrypted_flow_data") (get body "initial_vector")
    = Raise e ->
  decrypt_request body private_pem passphrase = (Raise e, [])
  /\ (exists pe, e = PyExn pe)
  /\ is_flow_endpoint_exception e = false
  /\ fst (decrypt_or_reply passphrase (JDict kvs) private_pem)
     = Ok (inl (Response 500 [])).
Proof.
  intros body Hload Hun Hfail.
  pose proof (decrypt_request_unwrapped body private_pem passphrase sk key Hload Hun) as Hreq.
  rewrite Hfail in Hreq.
  apply decrypt_flow_data_raises in Hfail as [pe ->].
  split; [exact Hreq|]. split; [eauto|]. split; [reflexivity|].
  apply (decrypt_or_reply_other_exception passphrase private_pem kvs pe [] Hreq).
Qed.

Lemma decrypt_request_symmetric_failure_witness :
  @decrypt_request Bench.libs (list_to_map (map_to_list Bench.tampered_request))
    Bench.private_pem [] = (Raise (PyExn InvalidTag), [])
  /\ (exists pe, PyExn InvalidTag = PyExn pe)
  /\ is_flow_endpoint_exception (PyExn InvalidTag) = false
  /\ fst (@decrypt_or_reply Bench.libs [] (JDict (map_to_list Bench.tampered_request))
            Bench.private_pem)
     = Ok (inl (Response 500 [])).
Proof.
  apply (decrypt_request_symmetric_failure Bench.libs
           (map_to_list Bench.tampered_request) Bench.private_pem []
           Bench.key_material Bench.k (PyExn InvalidTag));
    vm_compute; reflexivity.
Defined.

(** C8, the claim as stated fails: an altered tag makes decrypt_request
    raise [InvalidTag] and a plaintext that is not JSON makes it raise
    [JSONDecodeError], each as the library raised it: two kinds of
    exception, neither of them a classified error of the code. *)
Lemma symmetric_failures_are_unclassified :
  @decrypt_request Bench.libs Bench.tampered_request Bench.private_pem []
    = (Raise (PyExn InvalidTag), [])
  /\ @decrypt_request Bench.libs Bench.not_json_request Bench.private_pem []
    = (Raise (PyExn JSONDecodeError), [])
  /\ is_flow_endpoint_exception (PyExn InvalidTag) = false
  /\ is_flow_endpoint_exception (PyExn JSONDecodeError) = false
  /\ PyExn InvalidTag <> PyExn JSONDecodeError.
Proof.
  split; [vm_compute; reflexivity|]. split; [vm_compute; reflexivity|].
  split; [reflexivity|]. split; [reflexivity|]. discriminate.
Qed.

(** ** Absent fields *)



(** ** Hexadecimal digests *)

Lemma hexdigit_hexchar (n : Z) : hexchar (hexdigit n) = true.
Proof.
  unfold hexdigit. generalize (Z.to_nat n). intros i.
  destruct (Nat.lt_ge_cases i (length (lit "0123456789abcdef"))) as [Hlt|Hge].
  - assert (H : forallb hexchar (lit "0123456789abcdef") = true) by reflexivity.
    rewrite forallb_forall in H. apply H, nth_In, Hlt.
  - rewrite nth_overflow by exact Hge. reflexivity.
Qed.

Lemma hex_hexchars (b : list Z) : forallb hexchar (hex b) = true.
Proof.
  induction b as [|x b IH]; [reflexivity|].
  cbn [hex flat_map app forallb]. rewrite !hexdigit_hexchar. exact IH.
Qed.

Lemma hexchars_isascii (s : list Z) : forallb hexchar s = true -> isascii s = true.
Proof.
  unfold isascii. rewrite !forallb_forall. intros H c Hc. specialize (H c Hc).
  unfold hexchar in H. apply andb_true_iff. apply orb_true_iff in H.
  rewrite !andb_true_iff in H. lia.
Qed.

Lemma hex_isascii (b : list Z) : isascii (hex b) = true.
Proof. apply hexchars_isascii, hex_hexchars. Qed.

Lemma hex_byte_injective (x y : Z) :
  is_byte x -> is_byte y ->
  hexdigit (Z.shiftr x 4) = hexdigit (Z.shiftr y 4) ->
  hexdigit (Z.land x 15) = hexdigit (Z.land y 15) -> x = y.
Proof.
  intros Hx Hy H1 H2.
  pose proof (byte_cases2 (fun x y =>
    implb ((hexdigit (Z.shiftr x 4) =? hexdigit (Z.shiftr y 4))
           && (hexdigit (Z.land x 15) =? hexdigit (Z.land y 15))) (x =? y))) as H.
  specialize (H ltac:(vm_compute; reflexivity) x y Hx Hy). cbv beta in H.
  rewrite H1, H2, !Z.eqb_refl in H. cbn in H. apply Z.eqb_eq. exact H.
Qed.

Lemma hex_injective (a : list Z) :
  forall b, is_bytes a -> is_bytes b -> hex a = hex b -> a = b.
Proof.
  induction a as [|x a IH]; intros [|y b] Ha Hb H; try reflexivity;
    cbn [hex flat_map app] in H; try discriminate.
  apply is_bytes_cons in Ha as [Hx Ha]. apply is_bytes_cons in Hb as [Hy Hb].
  injection H as H1 H2 H3.
  rewrite (hex_byte_injective x y Hx Hy H1 H2). f_equal. apply IH; assumption.
Qed.

(** ** Stripping the prefix *)

(** A string without the letter [s] contains no occurrence of the
    prefix and is left as it is. *)
Lemma replace_from_no_s (s : list Z) :
  forallb (fun c => negb (c =? 115)) s = true ->
  replace_from (lit "sha256=") [] O s = s.
Proof.
  induction s as [|c s IH]; [reflexivity|].
  cbn [forallb]. intros H. apply andb_true_iff in H as [Hc Hs].
  cbn [replace_from]. change (lit "sha256=") with (115 :: lit "ha256=").
  cbn [starts_with]. apply negb_true_iff in Hc. rewrite Z.eqb_sym in Hc.
  rewrite Hc. cbn [andb]. f_equal. apply IH, Hs.
Qed.

Lemma hexchars_no_s (s : list Z) :
  forallb hexchar s = true -> forallb (fun c => negb (c =? 115)) s = true.
Proof.
  rewrite !forallb_forall. intros H c Hc. specialize (H c Hc). unfold hexchar in H.
  apply negb_true_iff, Z.eqb_neq. apply orb_true_iff in H.
  rewrite !andb_true_iff in H. lia.
Qed.

Lemma str_replace_hex (d : list Z) :
  forallb hexchar d = true -> str_replace d (lit "sha256=") [] = d.
Proof. intros H. apply replace_from_no_s, hexchars_no_s, H. Qed.

Lemma str_replace_prefixed_hex (d : list Z) :
  forallb hexchar d = true -> str_replace (lit "sha256=" ++ d) (lit "sha256=") [] = d.
Proof.
  intros H. unfold str_replace.
  change (lit "sha256=" ++ d) with (115 :: 104 :: 97 :: 50 :: 53 :: 54 :: 61 :: d).
  cbn. apply replace_from_no_s, hexchars_no_s, H.
Qed.

(** ** [is_request_signature_valid] *)

Lemma falsy_Some (s : list Z) : s <> [] -> falsy (Some s) = false.
Proof. destruct s; [contradiction|reflexivity]. Qed.

Section Verifier.
Context {L : Libs}.
Variables (secret key header raw_body : list Z).
Hypothesis Hsecret : secret <> [].
Hypothesis Hheader : header <> [].
Hypothesis Hkey : str_encode_utf8 secret = Ok key.

(** With a secret and a header, the verdict is that of [compare_digest]
    on the expected digest and the header stripped of the prefix. *)
Lemma is_request_signature_valid_compare :
  is_request_signature_valid (Some secret) (Some header) raw_body =
  match compare_digest (hex (hmac_sha256 key raw_body))
          (str_replace header (lit "sha256=") []) with
  | Ok true => (Ok true, [])
  | Ok false => (Ok false, [Log ERROR "Request Signature did not match" None])
  | Raise e => (Raise e, [])
  end.
Proof.
  unfold is_request_signature_valid.
  rewrite (falsy_Some secret Hsecret), (falsy_Some header Hheader).
  change (default [] (Some secret)) with secret.
  change (default [] (Some header)) with header.
  rewrite Hkey. unfold lift, bind.
  destruct (compare_digest _ _) as [[|]|e]; reflexivity.
Qed.

Lemma is_request_signature_valid_ascii :
  isascii (str_replace header (lit "sha256=") []) = true ->
  is_request_signature_valid (Some secret) (Some header) raw_body =
  if bool_decide (hex (hmac_sha256 key raw_body) = str_replace header (lit "sha256=") [])
  then (Ok true, [])
  else (Ok false, [Log ERROR "Request Signature did not match" None]).
Proof.
  intros Hascii. rewrite is_request_signature_valid_compare.
  unfold compare_digest. rewrite hex_isascii, Hascii. cbn [andb].
  destruct (bool_decide _); reflexivity.
Qed.

Lemma is_request_signature_valid_not_ascii :
  isascii (str_replace header (lit "sha256=") []) = false ->
  is_request_signature_valid (Some secret) (Some header) raw_body =
  (Raise (PyExn TypeError), []).
Proof.
  intros Hascii. rewrite is_request_signature_valid_compare.
  unfold compare_digest. rewrite hex_isascii, Hascii. reflexivity.
Qed.

End Verifier.

Section VerifierOnDigests.
Context {L : Libs} {C : LibsContract L}.
Variables (secret key raw_body : list Z).
Hypothesis Hsecret : secret <> [].
Hypothesis Hkey : str_encode_utf8 secret = Ok key.

Lemma hex_mac_not_nil : hex (hmac_sha256 key raw_body) <> [].
Proof.
  pose proof (hmac_sha256_length key raw_body) as Hlen.
  destruct (hmac_sha256 key raw_body); [discriminate|]. cbn. discriminate.
Qed.

(** On the hexadecimal digest of any byte string, bare or prefixed, the
    verifier answers whether it is the expected digest. *)
Lemma verify_hex (d : list Z) :
  fst (is_request_signature_valid (Some secret) (Some (hex d)) raw_body)
  = Ok (bool_decide (hex (hmac_sha256 key raw_body) = hex d)).
Proof.
  destruct (decide (hex d = [])) as [E|E].
  - rewrite E. rewrite bool_decide_eq_false_2 by apply hex_mac_not_nil.
    unfold is_request_signature_valid. rewrite (falsy_Some secret Hsecret). reflexivity.
  - rewrite (is_request_signature_valid_ascii secret key (hex d) raw_body Hsecret E Hkey);
      rewrite (str_replace_hex (hex d) (hex_hexchars d)); [|apply hex_isascii].
    destruct (bool_decide _); reflexivity.
Qed.

Lemma verify_prefixed_hex (d : list Z) :
  fst (is_request_signature_valid (Some secret) (Some (lit "sha256=" ++ hex d)) raw_body)
  = Ok (bool_decide (hex (hmac_sha256 key raw_body) = hex d)).
Proof.
  assert (E : lit "sha256=" ++ hex d <> []) by discriminate.
  rewrite (is_request_signature_valid_ascii secret key _ raw_body Hsecret E Hkey);
    rewrite (str_replace_prefixed_hex (hex d) (hex_hexchars d)); [|apply hex_isascii].
  destruct (bool_decide _); reflexivity.
Qed.

Lemma hex_mac_differs (d : list Z) :
  is_bytes d -> d <> hmac_sha256 key raw_body ->
  bool_decide (hex (hmac_sha256 key raw_body) = hex d) = false.
Proof.
  intros Hd Hne. apply bool_decide_eq_false_2. intros Heq. apply Hne. symmetry.
  apply hex_injective; [apply hmac_sha256_bytes|exact Hd|exact Heq].
Qed.

End VerifierOnDigests.

(** C5.  For a fixed secret and raw body, the verifier accepts the
    HMAC-SHA256 hex digest of the raw body both without and with the
    [sha256=] prefix on the header, and rejects the hex digest of every
    other byte string - in particular a digest that differs in one bit
    and a differing digest computed with another secret - again with or
    without the prefix; the prefix is stripped before the comparison:
    on any header that is ASCII once stripped, the verdict is the
    equality of the stripped header with the expected digest. *)
Theorem signature_accepts_digest_rejects_others (L : Libs) (C : LibsContract L)
    (secret key raw_body : list Z) :
  secret <> [] -> str_encode_utf8 secret = Ok key ->
  let verify header :=
    fst (is_request_signature_valid (Some secret) (Some header) raw_body) in
  let expected := hex (hmac_sha256 key raw_body) in
  verify expected = Ok true
  /\ verify (lit "sha256=" ++ expected) = Ok true
  /\ (forall other, is_bytes other -> other <> hmac_sha256 key raw_body ->
      verify (hex other) = Ok false
      /\ verify (lit "sha256=" ++ hex other) = Ok false)
  /\ (forall key', hmac_sha256 key' raw_body <> hmac_sha256 key raw_body ->
      verify (hex (hmac_sha256 key' raw_body)) = Ok false
      /\ verify (lit "sha256=" ++ hex (hmac_sha256 key' raw_body)) = Ok false)
  /\ (forall header, header <> [] ->
      isascii (str_replace header (lit "sha256=") []) = true ->
      verify header = Ok (bool_decide (expected = str_replace header (lit "sha256=") []))).
Proof.
  intros Hsecret Hkey verify expected. subst verify expected. cbv beta.
  assert (Hrej : forall other, is_bytes other -> other <> hmac_sha256 key raw_body ->
    fst (is_request_signature_valid (Some secret) (Some (hex other)) raw_body) = Ok false
    /\ fst (is_request_signature_valid (Some secret)
              (Some (lit "sha256=" ++ hex other)) raw_body) = Ok false).
  { intros other Hb Hne.
    rewrite (verify_hex secret key raw_body Hsecret Hkey other).
    rewrite (verify_prefixed_hex secret key raw_body Hsecret Hkey other).
    rewrite (hex_mac_differs key raw_body other Hb Hne). split; reflexivity. }
  split; [|split; [|split; [|split]]].
  - rewrite (verify_hex secret key raw_body Hsecret Hkey).
    rewrite bool_decide_eq_true_2 by reflexivity. reflexivity.
  - rewrite (verify_prefixed_hex secret key raw_body Hsecret Hkey).
    rewrite bool_decide_eq_true_2 by reflexivity. reflexivity.
  - exact Hrej.
  - intros key' Hne. apply Hrej; [apply hmac_sha256_bytes|exact Hne].
  - intros header Hheader Hascii.
    rewrite (is_request_signature_valid_ascii secret key header raw_body
               Hsecret Hheader Hkey Hascii).
    destruct (bool_decide _); reflexivity.
Qed.

Lemma signature_accepts_digest_rejects_others_witness :
  Bench.verify (hex (Bench.mac Bench.app_secret Bench.raw_body)) = Ok true
  /\ Bench.verify (lit "sha256=" ++ hex (Bench.mac Bench.app_secret Bench.raw_body))
     = Ok true
  /\ Bench.verify (hex Bench.flipped_digest) = Ok false
  /\ Bench.verify (lit "sha256=" ++ hex (Bench.mac Bench.other_secret Bench.raw_body))
     = Ok false.
Proof.
  destruct (signature_accepts_digest_rejects_others Bench.libs bench_contract
              Bench.app_secret Bench.app_secret Bench.raw_body
              ltac:(discriminate) eq_refl) as (H1 & H2 & H3 & H4 & _).
  split; [exact H1|]. split; [exact H2|]. split.
  - apply (H3 Bench.flipped_digest).
    + apply bytesb_spec. reflexivity.
    + vm_compute. discriminate.
  - apply (H4 Bench.other_secret). vm_compute. discriminate.
Defined.

(** What holds of the fail-closed behaviour: without a secret the
    verdict is [False] whatever the header, and the two log records tell
    this case from a bad signature; without a header the verdict is
    [False]; with a header that is ASCII once stripped and differs from
    the expected digest the verdict is [False]. *)
Lemma signature_fail_closed (L : Libs) (APP_SECRET signature_header : option (list Z))
    (secret key header raw_body : list Z) :
  (falsy APP_SECRET = true ->
   is_request_signature_valid APP_SECRET signature_header raw_body =
   (Ok false,
    [Log CRITICAL "CRITICAL: App Secret is not set. Rejecting request for security." None;
     Log WARNING "Set APP_SECRET in .env file to accept requests." None]))
  /\ (secret <> [] -> falsy signature_header = true ->
      is_request_signature_valid (Some secret) signature_header raw_body = (Ok false, []))
  /\ (secret <> [] -> header <> [] -> str_encode_utf8 secret = Ok key ->
      isascii (str_replace header (lit "sha256=") []) = true ->
      hex (hmac_sha256 key raw_body) <> str_replace header (lit "sha256=") [] ->
      is_request_signature_valid (Some secret) (Some header) raw_body =
      (Ok false, [Log ERROR "Request Signature did not match" None])).
Proof.
  split; [|split].
  - intros H. unfold is_request_signature_valid. rewrite H. reflexivity.
  - intros Hs H. unfold is_request_signature_valid.
    rewrite (falsy_Some secret Hs), H. reflexivity.
  - intros Hs Hh Hk Ha Hne.
    rewrite (is_request_signature_valid_ascii secret key header raw_body Hs Hh Hk Ha).
    rewrite bool_decide_eq_false_2 by exact Hne. reflexivity.
Qed.

(** C6, where the code departs from the claim.  With a secret configured
    and a signature header that holds a character outside ASCII, the
    digest mismatches and the verifier does not return [False]: the
    comparison raises [TypeError], which leaves the verifier and then
    the handler, so the request is not answered with status 432. *)
Theorem signature_non_ascii_header_raises (L : Libs)
    (get_next_screen : json -> result json) (raw_body : list Z) :
  is_request_signature_valid (Some Bench.app_secret) (Some Bench.latin1_header) raw_body
    = (Raise (PyExn TypeError), [])
  /\ handle_flow_request (Some Bench.app_secret) (Some Bench.private_pem) []
       get_next_screen (Some Bench.latin1_header) raw_body
     = (Raise (PyExn TypeError), []).
Proof.
  assert (H : is_request_signature_valid (Some Bench.app_secret)
                (Some Bench.latin1_header) raw_body = (Raise (PyExn TypeError), [])).
  { apply (is_request_signature_valid_not_ascii Bench.app_secret Bench.app_secret);
      [discriminate|discriminate|reflexivity|reflexivity]. }
  split; [exact H|].
  unfold handle_flow_request. cbn [Bench.private_pem]. unfold bind at 1.
  rewrite H. reflexivity.
Qed.

(** ** The library models on sample inputs *)

Example str_replace_strips_every_occurrence :
  str_replace (lit "xsha256=sha256=y") (lit "sha256=") [] = lit "xy"
  /\ str_replace (lit "shasha256=256=y") (lit "sha256=") [] = lit "sha256=y".
Proof. split; reflexivity. Qed.

Example b64decode_samples :
  b64decode (JStr (lit "ab==")) = Ok [105]
  /\ b64decode (JStr (lit "a=b==")) = Ok [105]
  /\ b64decode (JStr (lit "ab=c")) = raise_py BinasciiError
  /\ b64decode (JStr (lit "abc=d")) = Ok [105; 183]
  /\ b64decode (JStr (lit "ab!c d")) = Ok [105; 183; 29]
  /\ b64decode (JStr (lit "a")) = raise_py BinasciiError
  /\ b64decode (JStr [233]) = raise_py ValueError
  /\ b64decode JNull = raise_py TypeError
  /\ b64decode (JInt 5) = raise_py TypeError
  /\ b64encode [105; 183; 29; 1] = lit "abcdAQ==".
Proof. repeat split; reflexivity. Qed.

Example slices_of_a_short_buffer :
  slice_to_neg 16 [1; 2; 3; 4; 5] = ([] : list Z)
  /\ slice_from_neg 16 [1; 2; 3; 4; 5] = [1; 2; 3; 4; 5].
Proof. split; reflexivity. Qed.

Example handle_flow_request_end_to_end :
  fst (@handle_flow_request Bench.libs (Some Bench.app_secret) (Some Bench.private_pem) []
         (fun _ => Ok Bench.status_active)
         (Some (lit "sha256=" ++ hex (Bench.mac Bench.app_secret Bench.raw_body)))
         Bench.raw_body)
  = Ok (Response 200
          (b64encode (fst (Bench.seal Bench.k (flip_iv Bench.iv)
                             (Bench.dumps Bench.status_active))
                      ++ snd (Bench.seal Bench.k (flip_iv Bench.iv)
                                (Bench.dumps Bench.status_active))))).
Proof. vm_compute. reflexivity. Qed.

(** * Further properties of the envelope code *)

(** ** What [decrypt_request] raises, logs and returns *)

Lemma land_255_is_byte (x : Z) : is_byte (Z.land x 255).
Proof.
  unfold is_byte. change 255 with (Z.ones 8). rewrite Z.land_ones by lia.
  pose proof (Z.mod_pos_bound x (2 ^ 8)). lia.
Qed.

Lemma a2b_base64_loop_is_bytes (s : list Z) :
  forall quad_pos leftchar pads bin out,
  is_bytes bin ->
  a2b_base64_loop s quad_pos leftchar pads bin = Ok out -> is_bytes out.
Proof.
  assert (Hsnoc : forall bin x, is_bytes bin -> is_bytes (bin ++ [Z.land x 255])).
  { intros bin x Hb. apply is_bytes_app. split; [exact Hb|].
    apply is_bytes_cons. split; [apply land_255_is_byte|constructor]. }
  induction s as [|c s IH]; intros q l p bin out Hbin; cbn [a2b_base64_loop].
  - destruct (q =? 0); [|discriminate]. intros [= <-]. exact Hbin.
  - destruct (c =? BASE64_PAD).
    + destruct ((2 <=? q) && (4 <=? q + (p + 1))); [intros [= <-]; exact Hbin|].
      apply IH. exact Hbin.
    + destruct (a2b c) as [v|]; [|apply IH; exact Hbin].
      destruct (q =? 0); [apply IH; exact Hbin|].
      destruct (q =? 1); [apply IH, Hsnoc, Hbin|].
      destruct (q =? 2); apply IH, Hsnoc, Hbin.
Qed.

(** Whatever [base64.b64decode] returns is a byte string. *)
Lemma b64decode_is_bytes (v : json) (out : list Z) :
  b64decode v = Ok out -> is_bytes out.
Proof.
  destruct v; cbn [b64decode]; try discriminate.
  destruct (isascii s); [|discriminate].
  apply a2b_base64_loop_is_bytes. constructor.
Qed.

Lemma Cipher_AES_GCM_ok (key iv tag : list Z) :
  Cipher_AES_GCM key iv (Some tag) = Ok tt ->
  aes_key_ok key = true /\ gcm_iv_ok iv = true /\ (16 <= length tag)%nat.
Proof.
  unfold Cipher_AES_GCM, gcm_tag_ok.
  destruct (aes_key_ok key); [|discriminate].
  destruct (gcm_iv_ok iv); [|discriminate]. cbn [negb].
  destruct (16 <=? length tag)%nat eqn:E; [|discriminate].
  intros _. apply Nat.leb_le in E. auto.
Qed.

Section DecryptFlowDataReturns.
Context {L : Libs}.

(** What a result of the symmetric step tells about its arguments. *)
Lemma decrypt_flow_data_returns (key : list Z) (flow vector : json) (d : decrypted) :
  decrypt_flow_data key flow vector = Ok d ->
  aes_key d = key
  /\ b64decode vector = Ok (initial_vector d)
  /\ aes_key_ok key = true
  /\ gcm_iv_ok (initial_vector d) = true
  /\ exists buffer plain text,
       b64decode flow = Ok buffer
       /\ (16 <= length buffer)%nat
       /\ aes_gcm_decrypt key (initial_vector d)
            (slice_to_neg TAG_LENGTH buffer) (slice_from_neg TAG_LENGTH buffer)
          = Some plain
       /\ utf8_decode plain = Some text
       /\ json_loads text = inr (decrypted_body d).
Proof.
  unfold decrypt_flow_data. intros H.
  destruct (b64decode flow) as [buffer|] eqn:E1; cbn [result_bind] in H; [|discriminate].
  destruct (b64decode vector) as [ivb|] eqn:E2; cbn [result_bind] in H; [|discriminate].
  destruct (Cipher_AES_GCM key ivb _) as [[]|] eqn:E3; cbn [result_bind] in H;
    [|discriminate].
  unfold decryptor_run in H.
  destruct (aes_gcm_decrypt key ivb _ _) as [plain|] eqn:E4; cbn [result_bind] in H;
    [|discriminate].
  unfold bytes_decode_utf8 in H.
  destruct (utf8_decode plain) as [text|] eqn:E5; cbn [result_bind] in H; [|discriminate].
  destruct (json_loads text) as [|parsed] eqn:E6; cbn [from_lib result_bind] in H;
    [discriminate|].
  injection H as <-. cbn [aes_key initial_vector decrypted_body].
  apply Cipher_AES_GCM_ok in E3 as (Hk & Hiv & Htag).
  rewrite slice_from_neg_length in Htag.
  split; [reflexivity|]. split; [reflexivity|]. split; [exact Hk|]. split; [exact Hiv|].
  exists buffer, plain, text. repeat split; try assumption. lia.
Qed.

End DecryptFlowDataReturns.

(** X1.  [decrypt_request] raises [FlowEndpointException] only from the
    guard around the key unwrap: whenever it raises one, the status is
    421, the message is the fixed one, the private key had loaded, the
    unwrap had raised, and that cause is the one record logged. *)
Theorem flow_endpoint_exception_only_from_unwrap (L : Libs)
    (body : gmap (list Z) json) (private_pem passphrase : list Z)
    (sc : Z) (m : string) :
  fst (decrypt_request body private_pem passphrase) = Raise (FlowEndpointException sc m) ->
  sc = 421 /\ m = KEY_UNWRAP_MESSAGE
  /\ exists sk e,
       load_private_key private_pem passphrase = Ok sk
       /\ unwrap_aes_key sk (get body "encrypted_aes_key") = Raise e
       /\ snd (decrypt_request body private_pem passphrase)
          = [Log ERROR "Decryption error: " (Some e)].
Proof.
  intros H.
  destruct (load_private_key private_pem passphrase) as [sk|e] eqn:Hload.
  - destruct (unwrap_aes_key sk (get body "encrypted_aes_key")) as [key|e] eqn:Hun.
    + rewrite (decrypt_request_unwrapped body private_pem passphrase sk key Hload Hun) in H.
      cbn [fst] in H. apply decrypt_flow_data_raises in H as [pe Hpe]. discriminate.
    + rewrite (decrypt_request_unwrap_raises body private_pem passphrase sk e Hload Hun)
        in H |- *.
      cbn [fst snd] in *. injection H as <- <-.
      split; [reflexivity|]. split; [reflexivity|]. exists sk, e. auto.
  - rewrite (decrypt_request_load_raises body private_pem passphrase e Hload) in H.
    cbn [fst] in H. apply load_private_key_raises in Hload as [pe ->]. discriminate.
Qed.

Lemma flow_endpoint_exception_only_from_unwrap_witness :
  421 = 421 /\ KEY_UNWRAP_MESSAGE = KEY_UNWRAP_MESSAGE
  /\ exists sk e,
       @load_private_key Bench.libs Bench.private_pem [] = Ok sk
       /\ @unwrap_aes_key Bench.libs sk (get Bench.foreign_request "encrypted_aes_key")
          = Raise e
       /\ snd (@decrypt_request Bench.libs Bench.foreign_request Bench.private_pem [])
          = [Log ERROR "Decryption error: " (Some e)].
Proof.
  apply (flow_endpoint_exception_only_from_unwrap Bench.libs Bench.foreign_request
           Bench.private_pem [] 421 KEY_UNWRAP_MESSAGE).
  vm_compute. reflexivity.
Defined.

(** X2.  [decrypt_request] hands the logger at most one record, the
    error record of a failed key unwrap, and it does so exactly when it
    raises the 421 exception: no key, IV or plaintext is ever logged. *)
Theorem decrypt_request_logs_only_unwrap_failure (L : Libs)
    (body : gmap (list Z) json) (private_pem passphrase : list Z) :
  (snd (decrypt_request body private_pem passphrase) = []
   /\ forall sc m, fst (decrypt_request body private_pem passphrase)
                   <> Raise (FlowEndpointException sc m))
  \/ (exists e,
        decrypt_request body private_pem passphrase =
        (Raise (FlowEndpointException 421 KEY_UNWRAP_MESSAGE),
         [Log ERROR "Decryption error: " (Some e)])).
Proof.
  destruct (load_private_key private_pem passphrase) as [sk|e] eqn:Hload.
  - destruct (unwrap_aes_key sk (get body "encrypted_aes_key")) as [key|e] eqn:Hun.
    + left.
      rewrite (decrypt_request_unwrapped body private_pem passphrase sk key Hload Hun).
      split; [reflexivity|]. intros sc m H. cbn [fst] in H.
      apply decrypt_flow_data_raises in H as [pe Hpe]. discriminate.
    + right. exists e.
      apply (decrypt_request_unwrap_raises body private_pem passphrase sk e Hload Hun).
  - left. rewrite (decrypt_request_load_raises body private_pem passphrase e Hload).
    split; [reflexivity|]. intros sc m H. cbn [fst] in H.
    apply load_private_key_raises in Hload as [pe ->]. discriminate.
Qed.

(** X3.  When [decrypt_request] returns, nothing was logged, the
    returned key and IV are ones the cipher accepts, the IV is a byte
    string, the payload decoded to at least 16 bytes, and the returned
    body is the JSON reading of the plaintext that AES-GCM authenticated
    under the returned key and IV, with the last 16 bytes of the payload
    as the tag and all bytes before them as the ciphertext. *)
Theorem decrypt_request_returns_authenticated (L : Libs)
    (body : gmap (list Z) json) (private_pem passphrase : list Z)
    (d : decrypted) (logs : list log_record) :
  decrypt_request body private_pem passphrase = (Ok d, logs) ->
  logs = []
  /\ aes_key_ok (aes_key d) = true
  /\ gcm_iv_ok (initial_vector d) = true
  /\ is_bytes (initial_vector d)
  /\ exists sk buffer plain text,
       load_private_key private_pem passphrase = Ok sk
       /\ unwrap_aes_key sk (get body "encrypted_aes_key") = Ok (aes_key d)
       /\ b64decode (get body "encrypted_flow_data") = Ok buffer
       /\ (16 <= length buffer)%nat
       /\ aes_gcm_decrypt (aes_key d) (initial_vector d)
            (slice_to_neg TAG_LENGTH buffer) (slice_from_neg TAG_LENGTH buffer)
          = Some plain
       /\ utf8_decode plain = Some text
       /\ json_loads text = inr (decrypted_body d).
Proof.
  intros H.
  destruct (load_private_key private_pem passphrase) as [sk|e] eqn:Hload.
  - destruct (unwrap_aes_key sk (get body "encrypted_aes_key")) as [key|e] eqn:Hun.
    + rewrite (decrypt_request_unwrapped body private_pem passphrase sk key Hload Hun) in H.
      injection H as H <-.
      apply decrypt_flow_data_returns in H
        as (Hkey & Hvec & Hk & Hiv & buffer & plain & text & H1 & H2 & H3 & H4 & H5).
      subst key. split; [reflexivity|]. split; [exact Hk|]. split; [exact Hiv|].
      split; [apply (b64decode_is_bytes _ _ Hvec)|].
      exists sk, buffer, plain, text. repeat split; assumption.
    + rewrite (decrypt_request_unwrap_raises body private_pem passphrase sk e Hload Hun) in H.
      discriminate.
  - rewrite (decrypt_request_load_raises body private_pem passphrase e Hload) in H.
    discriminate.
Qed.

Lemma decrypt_request_returns_authenticated_witness :
  aes_key_ok Bench.k = true /\ gcm_iv_ok Bench.iv = true /\ is_bytes Bench.iv.
Proof.
  destruct (decrypt_request_returns_authenticated Bench.libs Bench.request
              Bench.private_pem [] (Decrypted Bench.ping Bench.k Bench.iv) []
              ltac:(vm_compute; reflexivity)) as (_ & H1 & H2 & H3 & _).
  exact (conj H1 (conj H2 H3)).
Defined.

(** ** When [encrypt_response] fails, and what undoes it *)

(** X4.  [encrypt_response] fails in one way only: it raises
    [ValueError] exactly when the key is not 16, 24 or 32 bytes long or
    the IV is not between 8 and 128 bytes long, whatever the response;
    otherwise it returns the base64 text of ciphertext and tag. *)
Theorem encrypt_response_fails_only_on_arguments (L : Libs) (C : LibsContract L)
    (response : json) (key iv : list Z) :
  encrypt_response response key iv =
  if aes_key_ok key && gcm_iv_ok iv
  then Ok (b64encode
             (fst (aes_gcm_encrypt key (flip_iv iv) (json_dumps response))
              ++ snd (aes_gcm_encrypt key (flip_iv iv) (json_dumps response))))
  else raise_py ValueError.
Proof.
  destruct (aes_key_ok key) eqn:Hk; cbn [andb].
  - destruct (gcm_iv_ok iv) eqn:Hiv.
    + apply encrypt_response_ok; assumption.
    + unfold encrypt_response, Cipher_AES_GCM.
      rewrite Hk, gcm_iv_ok_flip, Hiv. reflexivity.
  - unfold encrypt_response, Cipher_AES_GCM. rewrite Hk. reflexivity.
Qed.

Lemma encrypt_response_fails_only_on_arguments_witness :
  @encrypt_response Bench.libs Bench.status_active [1; 2; 3] Bench.iv
  = raise_py ValueError.
Proof.
  rewrite (encrypt_response_fails_only_on_arguments Bench.libs bench_contract).
  reflexivity.
Defined.

(** X5.  Decryption and encryption compose: the key and the IV that
    [decrypt_request] returns are always accepted by
    [encrypt_response], which therefore returns a body for every
    response. *)
Theorem encrypt_response_after_decrypt_request (L : Libs) (C : LibsContract L)
    (body : gmap (list Z) json) (private_pem passphrase : list Z)
    (d : decrypted) (logs : list log_record) (response : json) :
  decrypt_request body private_pem passphrase = (Ok d, logs) ->
  exists out, encrypt_response response (aes_key d) (initial_vector d) = Ok out.
Proof.
  intros H.
  apply decrypt_request_returns_authenticated in H as (_ & Hk & Hiv & _).
  rewrite (encrypt_response_fails_only_on_arguments L C), Hk, Hiv. cbn [andb]. eauto.
Qed.

Lemma encrypt_response_after_decrypt_request_witness :
  exists out, @encrypt_response Bench.libs Bench.status_active Bench.k Bench.iv = Ok out.
Proof.
  apply (encrypt_response_after_decrypt_request Bench.libs bench_contract Bench.request
           Bench.private_pem [] (Decrypted Bench.ping Bench.k Bench.iv) []
           Bench.status_active).
  vm_compute. reflexivity.
Defined.

(** X6.  The reply can be read back: what [encrypt_response] returns for
    [m] under [k] and [iv] is a payload that the symmetric step of
    [decrypt_request] opens under [k] and the complemented IV, giving
    back [m] whenever [json.loads] reads back what [json.dumps] wrote
    for [m]. *)
Theorem encrypt_response_read_back (L : Libs) (C : LibsContract L)
    (m : json) (k iv out : list Z) :
  aes_key_ok k = true -> gcm_iv_ok iv = true ->
  json_loads (json_dumps m) = inr m ->
  encrypt_response m k iv = Ok out ->
  decrypt_flow_data k (JStr out) (JStr (b64encode (flip_iv iv)))
  = Ok {| decrypted_body := m; aes_key := k; initial_vector := flip_iv iv |}.
Proof.
  intros Hk Hiv Hjson Hout.
  rewrite (encrypt_response_ok m k iv Hk Hiv) in Hout. injection Hout as <-.
  pose proof (json_dumps_ascii m) as Hascii.
  assert (Hiv' : gcm_iv_ok (flip_iv iv) = true) by (rewrite gcm_iv_ok_flip; exact Hiv).
  pose proof (isascii_is_bytes _ Hascii) as Bp.
  pose proof (aes_gcm_encrypt_bytes k (flip_iv iv) (json_dumps m) Hk Hiv' Bp) as [Bc Bt].
  pose proof (aes_gcm_tag_length k (flip_iv iv) (json_dumps m) Hk Hiv') as Htag.
  pose proof (aes_gcm_decrypt_encrypt k (flip_iv iv) (json_dumps m) Hk Hiv' Bp) as Hdec.
  destruct (aes_gcm_encrypt k (flip_iv iv) (json_dumps m)) as [c t]. cbn [fst snd] in *.
  unfold decrypt_flow_data.
  rewrite b64decode_b64encode by (apply is_bytes_app; split; assumption).
  rewrite b64decode_b64encode by apply flip_iv_is_bytes. cbn [result_bind].
  rewrite (slice_to_neg_app TAG_LENGTH c t Htag), (slice_from_neg_app TAG_LENGTH c t Htag).
  unfold Cipher_AES_GCM, gcm_tag_ok. rewrite Hk, Hiv', Htag. cbn [negb Nat.leb result_bind].
  unfold decryptor_run. rewrite Hdec. cbn [result_bind].
  unfold bytes_decode_utf8. rewrite (utf8_decode_ascii _ Hascii). cbn [result_bind].
  rewrite Hjson. reflexivity.
Qed.

Lemma encrypt_response_read_back_witness :
  exists out,
    @encrypt_response Bench.libs Bench.status_active Bench.k Bench.iv = Ok out
    /\ @decrypt_flow_data Bench.libs Bench.k (JStr out)
         (JStr (b64encode (flip_iv Bench.iv)))
       = Ok (Decrypted Bench.status_active Bench.k (flip_iv Bench.iv)).
Proof.
  destruct (encrypt_response_after_decrypt_request Bench.libs bench_contract Bench.request
              Bench.private_pem [] (Decrypted Bench.ping Bench.k Bench.iv) []
              Bench.status_active ltac:(vm_compute; reflexivity)) as [out Hout].
  exists out. split; [exact Hout|].
  apply (encrypt_response_read_back Bench.libs bench_contract Bench.status_active
           Bench.k Bench.iv out); [reflexivity|reflexivity|vm_compute; reflexivity|exact Hout].
Defined.

(** X7.  The IV of the reply never repeats the IV of the request: the
    flipped IV has the length of the given one and differs from it at
    every position, whatever numbers the given list holds. *)
Theorem flip_iv_differs_everywhere (iv : list Z) :
  length (flip_iv iv) = length iv
  /\ forall (i : nat) (a b : Z),
       flip_iv iv !! i = Some a -> iv !! i = Some b -> a <> b.
Proof.
  split; [apply flip_iv_length|].
  intros i a b Ha Hb. unfold flip_iv in Ha.
  rewrite list_lookup_fmap, Hb in Ha. cbn in Ha. injection Ha as <-.
  intros Heq.
  assert (Hbyte : is_byte b) by (rewrite <- Heq; apply flip_byte_is_byte).
  pose proof (flip_byte_xor b Hbyte) as Hx. rewrite Heq in Hx.
  assert (Hne : (Z.lxor b 255 =? b) = false).
  { apply negb_true_iff.
    apply (byte_cases (fun b => negb (Z.lxor b 255 =? b))); [vm_compute; reflexivity|].
    exact Hbyte. }
  apply Z.eqb_neq in Hne. congruence.
Qed.

(** ** What the signature verifier accepts *)

Lemma str_encode_utf8_cases (s : list Z) :
  (exists key, str_encode_utf8 s = Ok key)
  \/ str_encode_utf8 s = raise_py UnicodeEncodeError.
Proof. unfold str_encode_utf8. destruct (utf8_encode s); eauto. Qed.

(** X8.  The verifier is sound: it returns [True] only when a secret is
    configured, a header is present and the header, once every
    occurrence of [sha256=] is removed from it, is exactly the
    hexadecimal HMAC-SHA256 digest of the raw body under that secret;
    it then logs nothing. *)
Theorem signature_valid_only_for_expected_digest (L : Libs)
    (APP_SECRET signature_header : option (list Z)) (raw_body : list Z) :
  fst (is_request_signature_valid APP_SECRET signature_header raw_body) = Ok true ->
  exists secret header key,
    APP_SECRET = Some secret /\ secret <> []
    /\ signature_header = Some header /\ header <> []
    /\ str_encode_utf8 secret = Ok key
    /\ str_replace header (lit "sha256=") [] = hex (hmac_sha256 key raw_body)
    /\ snd (is_request_signature_valid APP_SECRET signature_header raw_body) = [].
Proof.
  intros H.
  destruct APP_SECRET as [[|c0 s0]|]; try (cbn in H; discriminate).
  destruct signature_header as [[|h0 hs]|]; try (cbn in H; discriminate).
  set (secret := c0 :: s0) in *. set (header := h0 :: hs) in *.
  assert (Hs : secret <> []) by discriminate.
  assert (Hh : header <> []) by discriminate.
  destruct (str_encode_utf8_cases secret) as [[key Hkey]|Hkey].
  - rewrite (is_request_signature_valid_compare secret key header raw_body Hs Hh Hkey)
      in H |- *.
    unfold compare_digest in *.
    destruct (isascii (hex (hmac_sha256 key raw_body))
              && isascii (str_replace header (lit "sha256=") []));
      [|cbn in H; discriminate].
    destruct (bool_decide _) eqn:E; [|cbn in H; discriminate].
    apply bool_decide_eq_true in E.
    exists secret, header, key. repeat split; try assumption. symmetry. exact E.
  - unfold is_request_signature_valid in H.
    rewrite (falsy_Some secret Hs), (falsy_Some header Hh) in H.
    change (default [] (Some secret)) with secret in H.
    rewrite Hkey in H. cbn in H. discriminate.
Qed.

Lemma signature_valid_only_for_expected_digest_witness :
  exists secret header key,
    Some Bench.app_secret = Some secret /\ secret <> []
    /\ Some (hex (Bench.mac Bench.app_secret Bench.raw_body)) = Some header
    /\ header <> []
    /\ str_encode_utf8 secret = Ok key
    /\ str_replace header (lit "sha256=") [] = hex (Bench.mac key Bench.raw_body)
    /\ snd (@is_request_signature_valid Bench.libs (Some Bench.app_secret)
              (Some (hex (Bench.mac Bench.app_secret Bench.raw_body))) Bench.raw_body)
       = [].
Proof.
  apply (signature_valid_only_for_expected_digest Bench.libs (Some Bench.app_secret)
           (Some (hex (Bench.mac Bench.app_secret Bench.raw_body))) Bench.raw_body).
  vm_compute. reflexivity.
Defined.

(** Removing the prefix from a digest into which it was inserted. *)
Lemma replace_from_inserted_prefix (d1 d2 : list Z) :
  forallb (fun c => negb (c =? 115)) d1 = true ->
  forallb (fun c => negb (c =? 115)) d2 = true ->
  replace_from (lit "sha256=") [] O (d1 ++ lit "sha256=" ++ d2) = d1 ++ d2.
Proof.
  intros H1 H2. induction d1 as [|c d1 IH].
  - change ([] ++ lit "sha256=" ++ d2)
      with (115 :: 104 :: 97 :: 50 :: 53 :: 54 :: 61 :: d2).
    cbn. apply replace_from_no_s, H2.
  - cbn [forallb] in H1. apply andb_true_iff in H1 as [Hc H1].
    change ((c :: d1) ++ lit "sha256=" ++ d2) with (c :: (d1 ++ lit "sha256=" ++ d2)).
    cbn [replace_from]. change (lit "sha256=") with (115 :: lit "ha256=") at 1.
    cbn [starts_with]. apply negb_true_iff in Hc. rewrite Z.eqb_sym in Hc.
    rewrite Hc. cbn [andb app]. f_equal. apply IH, H1.
Qed.

(** X9.  The prefix need not lead: because [str.replace] removes every
    occurrence, the verifier also accepts the expected digest with
    [sha256=] inserted at any position inside it or after it. *)
Theorem signature_accepts_prefix_anywhere (L : Libs)
    (secret key raw_body d1 d2 : list Z) :
  secret <> [] -> str_encode_utf8 secret = Ok key ->
  d1 ++ d2 = hex (hmac_sha256 key raw_body) ->
  is_request_signature_valid (Some secret) (Some (d1 ++ lit "sha256=" ++ d2)) raw_body
  = (Ok true, []).
Proof.
  intros Hs Hkey Hsplit.
  assert (Hhex : forallb hexchar (d1 ++ d2) = true) by (rewrite Hsplit; apply hex_hexchars).
  pose proof (hexchars_no_s _ Hhex) as Hno. rewrite forallb_app in Hno.
  apply andb_true_iff in Hno as [H1 H2].
  assert (Hrep : str_replace (d1 ++ lit "sha256=" ++ d2) (lit "sha256=") [] = d1 ++ d2)
    by (apply replace_from_inserted_prefix; assumption).
  assert (Hne : d1 ++ lit "sha256=" ++ d2 <> []) by (destruct d1; discriminate).
  rewrite (is_request_signature_valid_ascii secret key _ raw_body Hs Hne Hkey);
    rewrite Hrep; [|apply hexchars_isascii, Hhex].
  rewrite bool_decide_eq_true_2 by (symmetry; exact Hsplit). reflexivity.
Qed.

Lemma signature_accepts_prefix_anywhere_witness :
  @is_request_signature_valid Bench.libs (Some Bench.app_secret)
    (Some (take 10 (hex (Bench.mac Bench.app_secret Bench.raw_body))
           ++ lit "sha256="
           ++ drop 10 (hex (Bench.mac Bench.app_secret Bench.raw_body))))
    Bench.raw_body
  = (Ok true, []).
Proof.
  apply (signature_accepts_prefix_anywhere Bench.libs Bench.app_secret Bench.app_secret);
    [discriminate|reflexivity|apply take_drop].
Defined.

(** ** The replies of [handle_flow_request] *)

Lemma bind_returns {A B : Type} (c : logged A) (k : A -> logged B) (b : B)
    (logs : list log_record) :
  bind c k = (Ok b, logs) ->
  exists a l1 l2, c = (Ok a, l1) /\ k a = (Ok b, l2) /\ logs = l1 ++ l2.
Proof.
  unfold bind. destruct c as [[a|e] l1]; [|discriminate].
  destruct (k a) as [r l2] eqn:E. intros [= -> <-].
  exists a, l1, l2. split; [reflexivity|]. split; [exact E|reflexivity].
Qed.

Lemma lift_returns {A : Type} (r : result A) (a : A) (logs : list log_record) :
  lift r = (Ok a, logs) -> r = Ok a /\ logs = [].
Proof. unfold lift. intros [= -> <-]. auto. Qed.

Lemma falsy_false (x : option (list Z)) :
  falsy x = false -> exists s, x = Some s /\ s <> [].
Proof.
  destruct x as [[|c s]|]; try discriminate. intros _.
  exists (c :: s). split; [reflexivity|discriminate].
Qed.

Section HandlerReplies.
Context {L : Libs}.
Variables (APP_SECRET PRIVATE_KEY : option (list Z)) (PASSPHRASE : list Z).
Variable get_next_screen : json -> result json.

Lemma decrypt_parsed_flow_endpoint_exception (body : json) (pem : list Z)
    (sc : Z) (m : string) (l : list log_record) :
  decrypt_parsed PASSPHRASE body pem = (Raise (FlowEndpointException sc m), l) -> sc = 421.
Proof.
  unfold decrypt_parsed. destruct body; try discriminate. intros H.
  apply (flow_endpoint_exception_only_from_unwrap L (list_to_map kvs) pem PASSPHRASE sc m).
  rewrite H. reflexivity.
Qed.

Lemma decrypt_or_reply_returns (body : json) (pem : list Z)
    (outcome : http_reply + decrypted) (l : list log_record) :
  decrypt_or_reply PASSPHRASE body pem = (Ok outcome, l) ->
  (outcome = inl (Response 421 [])
   /\ exists m l', decrypt_parsed PASSPHRASE body pem
                   = (Raise (FlowEndpointException 421 m), l'))
  \/ (outcome = inl (Response 500 [])
      /\ exists pe l', decrypt_parsed PASSPHRASE body pem = (Raise (PyExn pe), l'))
  \/ (exists d, outcome = inr d /\ decrypt_parsed PASSPHRASE body pem = (Ok d, l)).
Proof.
  unfold decrypt_or_reply.
  destruct (decrypt_parsed PASSPHRASE body pem) as [[d|[sc m|pe]] l'] eqn:E.
  - intros [= <- <-]. right. right. eauto.
  - intros [= <- <-]. left.
    pose proof (decrypt_parsed_flow_endpoint_exception body pem sc m l' E) as ->. eauto.
  - intros [= <- <-]. right. left. eauto.
Qed.

End HandlerReplies.

(** X10.  Whenever [handle_flow_request] returns a reply, it is one of
    five: the 500 [HTTPException] for an empty private key, before
    anything else is looked at; 432 with an empty body when the
    verifier answered [False], with nothing parsed or decrypted; 421
    when decryption raised [FlowEndpointException]; 500 when decryption
    raised anything else; and 200, only for a request whose signature
    verified and whose envelope decrypted, with the encryption of the
    flow's response under the request's own key and IV as the body. *)
Theorem handle_flow_request_replies (L : Libs)
    (APP_SECRET PRIVATE_KEY : option (list Z)) (PASSPHRASE : list Z)
    (get_next_screen : json -> result json)
    (signature_header : option (list Z)) (raw_body : list Z)
    (reply : http_reply) (logs : list log_record) :
  handle_flow_request APP_SECRET PRIVATE_KEY PASSPHRASE get_next_screen
    signature_header raw_body = (Ok reply, logs) ->
  (falsy PRIVATE_KEY = true /\ logs = []
   /\ exists detail, reply = HTTPException 500 detail)
  \/ exists pem,
       PRIVATE_KEY = Some pem /\ pem <> []
       /\ ((reply = Response 432 []
            /\ is_request_signature_valid APP_SECRET signature_header raw_body
               = (Ok false, logs))
           \/ (fst (is_request_signature_valid APP_SECRET signature_header raw_body)
               = Ok true
               /\ exists body,
                    request_json raw_body = inr body
                    /\ ((reply = Response 421 []
                         /\ exists m l,
                              decrypt_parsed PASSPHRASE body pem
                              = (Raise (FlowEndpointException 421 m), l))
                        \/ (reply = Response 500 []
                            /\ exists pe l,
                                 decrypt_parsed PASSPHRASE body pem
                                 = (Raise (PyExn pe), l))
                        \/ (exists d l r content,
                              decrypt_parsed PASSPHRASE body pem = (Ok d, l)
                              /\ get_next_screen (decrypted_body d) = Ok r
                              /\ encrypt_response r (aes_key d) (initial_vector d)
                                 = Ok content
                              /\ reply = Response 200 content)))).
Proof.
  unfold handle_flow_request. intros H.
  destruct (falsy PRIVATE_KEY) eqn:Hpk.
  - left. destruct PRIVATE_KEY as [[|c p]|]; try discriminate;
      injection H as <- <-; eauto.
  - right. apply falsy_false in Hpk as (pem & -> & Hpem). exists pem.
    split; [reflexivity|]. split; [exact Hpem|].
    destruct pem as [|c p]; [contradiction|].
    apply bind_returns in H as (valid & l1 & l2 & Hsig & H & ->).
    destruct valid; cbn [negb] in H.
    + right. rewrite Hsig. split; [reflexivity|].
      apply bind_returns in H as (body & l3 & l4 & Hbody & H & ->).
      apply lift_returns in Hbody as [Hbody ->].
      destruct (request_json raw_body) as [|body'] eqn:Hreq; [discriminate|].
      injection Hbody as ->. exists body. split; [reflexivity|].
      apply bind_returns in H as (outcome & l5 & l6 & Hout & H & ->).
      apply decrypt_or_reply_returns in Hout
        as [[-> Hfee]|[[-> Hpy]|(d & -> & Hd)]].
      * left. injection H as <- <-. auto.
      * right. left. injection H as <- <-. auto.
      * right. right.
        apply bind_returns in H as ([] & l7 & l8 & Hdict & H & ->).
        apply bind_returns in H as ([] & l9 & l10 & _ & H & ->).
        apply bind_returns in H as ([] & l11 & l12 & _ & H & ->).
        apply bind_returns in H as (r & l13 & l14 & Hr & H & ->).
        apply lift_returns in Hr as [Hr ->].
        apply bind_returns in H as ([] & l15 & l16 & _ & H & ->).
        apply bind_returns in H as ([] & l17 & l18 & _ & H & ->).
        apply bind_returns in H as (content & l19 & l20 & Henc & H & ->).
        apply lift_returns in Henc as [Henc ->].
        injection H as <- <-.
        exists d, l5, r, content. auto.
    + left. injection H as <- <-. rewrite app_nil_r. split; [reflexivity|exact Hsig].
Qed.

Lemma handle_flow_request_replies_witness :
  let reply :=
    Response 200
      (b64encode (fst (Bench.seal Bench.k (flip_iv Bench.iv)
                         (Bench.dumps Bench.status_active))
                  ++ snd (Bench.seal Bench.k (flip_iv Bench.iv)
                            (Bench.dumps Bench.status_active)))) in
  (falsy (Some Bench.private_pem) = true
   /\ [Log INFO "Decrypted Request" None; Log DEBUG "Full decrypted body" None;
       Log INFO "Screen response prepared" None; Log DEBUG "Response to encrypt" None]
      = []
   /\ exists detail, reply = HTTPException 500 detail)
  \/ exists pem,
       Some Bench.private_pem = Some pem /\ pem <> []
       /\ ((reply = Response 432 []
            /\ @is_request_signature_valid Bench.libs (Some Bench.app_secret)
                 (Some (hex (Bench.mac Bench.app_secret Bench.raw_body))) Bench.raw_body
               = (Ok false,
                  [Log INFO "Decrypted Request" None;
                   Log DEBUG "Full decrypted body" None;
                   Log INFO "Screen response prepared" None;
                   Log DEBUG "Response to encrypt" None]))
           \/ (fst (@is_request_signature_valid Bench.libs (Some Bench.app_secret)
                      (Some (hex (Bench.mac Bench.app_secret Bench.raw_body)))
                      Bench.raw_body)
               = Ok true
               /\ exists body,
                    Bench.body_of Bench.raw_body = inr body
                    /\ ((reply = Response 421 []
                         /\ exists m l,
                              @decrypt_parsed Bench.libs [] body pem
                              = (Raise (FlowEndpointException 421 m), l))
                        \/ (reply = Response 500 []
                            /\ exists pe l,
                                 @decrypt_parsed Bench.libs [] body pem
                                 = (Raise (PyExn pe), l))
                        \/ (exists d l r content,
                              @decrypt_parsed Bench.libs [] body pem = (Ok d, l)
                              /\ Ok Bench.status_active = Ok r
                              /\ @encrypt_response Bench.libs r (aes_key d)
                                   (initial_vector d) = Ok content
                              /\ reply = Response 200 content)))).
Proof.
  intros reply.
  apply (handle_flow_request_replies Bench.libs (Some Bench.app_secret)
           (Some Bench.private_pem) [] (fun _ => Ok Bench.status_active)
           (Some (hex (Bench.mac Bench.app_secret Bench.raw_body))) Bench.raw_body).
  vm_compute. reflexivity.
Defined.

(** * The flow logic of flow.py *)

Section FlowLogic.
Variable repr_compound : json -> list Z.

Lemma as_dict_raises (v : json) (e : exn) :
  as_dict v = Raise e -> e = PyExn AttributeError /\ forall kvs, v <> JDict kvs.
Proof.
  destruct v; cbn [as_dict]; try discriminate;
    intros H; apply raise_py_inv in H; split; try exact H; discriminate.
Qed.

Lemma as_dict_returns (v : json) (d : gmap (list Z) json) :
  as_dict v = Ok d -> exists kvs, v = JDict kvs /\ d = list_to_map kvs.
Proof. destruct v; cbn [as_dict]; try discriminate. intros [= <-]. eauto. Qed.



End FlowLogic.


Section FlowResponses.
Variable repr_compound : json -> list Z.

(** The responses of [handle_data_exchange], screen by screen. *)
Lemma handle_data_exchange_returns (screen data flow_token : json)
    (body : gmap (list Z) json) (response : json) :
  fst (handle_data_exchange repr_compound screen data flow_token body) = Ok response ->
  field response "version" = Some (get_or body "version" (JStr (lit "3.0")))
  /\ (exists d, field response "data" = Some (JDict d))
  /\ field response "screen"
     = if eq_str screen "WELCOME" then Some (JStr (lit "DETAILS"))
       else if eq_str screen "DETAILS" then Some (JStr (lit "SUCCESS"))
       else None.
Proof.
  unfold handle_data_exchange.
  generalize (get_or body "version" (JStr (lit "3.0"))). intros version.
  destruct (eq_str screen "WELCOME").
  - destruct data; cbn; try discriminate. intros [= <-].
    generalize (get_or (list_to_map kvs) "name" (JStr (lit "User"))). intros name.
    repeat split; try reflexivity. eexists. reflexivity.
  - destruct (eq_str screen "DETAILS").
    + destruct data; cbn; try discriminate. intros [= <-].
      generalize (py_str repr_compound (get_or (list_to_map kvs) "name" JNull)).
      intros name.
      repeat split; try reflexivity. eexists. reflexivity.
    + destruct (eq_str screen "SUCCESS"); cbn; intros [= <-].
      * repeat split; try reflexivity. eexists. reflexivity.
      * generalize (py_str repr_compound screen). intros text.
        repeat split; try reflexivity. eexists. reflexivity.
Qed.

(** Every response of [get_next_screen]: its version, its data and its
    next screen. *)
Lemma get_next_screen_returns (kvs : list (list Z * json)) (response : json) :
  let body : gmap (list Z) json := list_to_map kvs in
  let action := get_or body "action" JNull in
  let screen := get_or body "screen" JNull in
  fst (get_next_screen repr_compound (JDict kvs)) = Ok response ->
  field response "version" = Some (get_or body "version" (JStr (lit "3.0")))
  /\ (exists d, field response "data" = Some (JDict d))
  /\ field response "screen"
     = if eq_str action "ping" then None
       else if eq_str action "INIT" then Some (JStr (lit "WELCOME"))
       else if eq_str action "data_exchange" then
         if eq_str screen "WELCOME" then Some (JStr (lit "DETAILS"))
         else if eq_str screen "DETAILS" then Some (JStr (lit "SUCCESS"))
         else None
       else None.
Proof.
  intros body action screen. unfold get_next_screen. cbn [as_dict lift bind].
  fold body. fold action. fold screen.
  destruct (eq_str action "ping").
  - cbn. intros [= <-]. generalize (get_or body "version" (JStr (lit "3.0"))).
    intros version. repeat split; try reflexivity. eexists. reflexivity.
  - destruct (eq_str action "INIT").
    + cbn. intros [= <-]. generalize (get_or body "version" (JStr (lit "3.0"))).
      intros version. generalize (get_or body "flow_token" JNull). intros token.
      repeat split; try reflexivity. eexists. reflexivity.
    + destruct (eq_str action "data_exchange").
      * destruct (handle_data_exchange repr_compound screen _ _ body) as [r l] eqn:Eh.
        cbn. intros Hr.
        apply (handle_data_exchange_returns screen (get_or body "data" (JDict []))
                 (get_or body "flow_token" JNull) body response).
        rewrite Eh. exact Hr.
      * cbn. intros [= <-]. generalize (get_or body "version" (JStr (lit "3.0"))).
        intros version. generalize (py_str repr_compound action). intros text.
        repeat split; try reflexivity. eexists. reflexivity.
Qed.

(** X12.  Every response of [get_next_screen] is a dict that carries the
    [version] of the request, or [3.0] when the request names none, and
    a [data] dict. *)
Theorem get_next_screen_echoes_version (decrypted_body response : json) :
  fst (get_next_screen repr_compound decrypted_body) = Ok response ->
  exists kvs data,
    decrypted_body = JDict kvs
    /\ field response "version"
       = Some (get_or (list_to_map kvs) "version" (JStr (lit "3.0")))
    /\ field response "data" = Some (JDict data).
Proof.
  intros H. destruct decrypted_body as [| | | | |xs|kvs]; try (cbn in H; discriminate).
  apply get_next_screen_returns in H as (Hv & [d Hd] & _). eauto.
Qed.

(** X13.  The screens follow one another in a fixed order: [INIT] leads
    to [WELCOME], a data exchange on [WELCOME] to [DETAILS], on
    [DETAILS] to [SUCCESS]; [ping], a data exchange on [SUCCESS] or on
    an unknown screen, and an unknown action name no next screen. *)
Theorem get_next_screen_navigation (kvs : list (list Z * json)) (response : json) :
  let body : gmap (list Z) json := list_to_map kvs in
  let action := get_or body "action" JNull in
  let screen := get_or body "screen" JNull in
  fst (get_next_screen repr_compound (JDict kvs)) = Ok response ->
  field response "screen"
  = if eq_str action "ping" then None
    else if eq_str action "INIT" then Some (JStr (lit "WELCOME"))
    else if eq_str action "data_exchange" then
      if eq_str screen "WELCOME" then Some (JStr (lit "DETAILS"))
      else if eq_str screen "DETAILS" then Some (JStr (lit "SUCCESS"))
      else None
    else None.
Proof.
  intros body action screen H.
  apply get_next_screen_returns in H as (_ & _ & H). exact H.
Qed.


End FlowResponses.

Lemma get_next_screen_echoes_version_witness :
  exists kvs data,
    Demo.details_without_name = JDict kvs
    /\ field (JDict [(lit "version", JStr (lit "7.2"));
                     (lit "screen", JStr (lit "SUCCESS"));
                     (lit "data",
                      JDict [(lit "success", JBool true);
                             (lit "message", JStr (lit "Thank you, None!"));
                             (lit "confirmation_id", JStr (lit "token-1"))])])
         "version"
       = Some (get_or (list_to_map kvs) "version" (JStr (lit "3.0")))
    /\ field (JDict [(lit "version", JStr (lit "7.2"));
                     (lit "screen", JStr (lit "SUCCESS"));
                     (lit "data",
                      JDict [(lit "success", JBool true);
                             (lit "message", JStr (lit "Thank you, None!"));
                             (lit "confirmation_id", JStr (lit "token-1"))])])
         "data"
       = Some (JDict data).
Proof.
  apply (get_next_screen_echoes_version Demo.repr_compound Demo.details_without_name).
  vm_compute. reflexivity.
Defined.

Lemma get_next_screen_navigation_witness :
  field (JDict [(lit "version", JStr (lit "7.2"));
                (lit "screen", JStr (lit "SUCCESS"));
                (lit "data",
                 JDict [(lit "success", JBool true);
                        (lit "message", JStr (lit "Thank you, None!"));
                        (lit "confirmation_id", JStr (lit "token-1"))])])
    "screen"
  = Some (JStr (lit "SUCCESS")).
Proof.
  apply (get_next_screen_navigation Demo.repr_compound
           [(lit "version", JStr (lit "7.2"));
            (lit "action", JStr (lit "data_exchange"));
            (lit "screen", JStr (lit "DETAILS"));
            (lit "flow_token", JStr (lit "token-1"));
            (lit "data", JDict [(lit "email", JStr (lit "a@b.example"))])]).
  vm_compute. reflexivity.
Defined.


(** * The handler end to end *)

(** X15.  A request that verifies and decrypts to a dict is always
    answered: if the flow logic returns a response, the handler replies
    200 with the encryption of that response under the key and IV of
    the request, and logs its four progress records and nothing else;
    the encryption step cannot fail. *)
Theorem handle_flow_request_answers_200 (L : Libs) (C : LibsContract L)
    (APP_SECRET : option (list Z)) (pem PASSPHRASE : list Z)
    (get_next_screen : json -> result json)
    (signature_header : option (list Z)) (raw_body : list Z)
    (kvs body : list (list Z * json)) (d : decrypted) (l : list log_record)
    (response : json) :
  pem <> [] ->
  fst (is_request_signature_valid APP_SECRET signature_header raw_body) = Ok true ->
  request_json raw_body = inr (JDict kvs) ->
  decrypt_request (list_to_map kvs) pem PASSPHRASE = (Ok d, l) ->
  decrypted_body d = JDict body ->
  get_next_screen (decrypted_body d) = Ok response ->
  exists content,
    encrypt_response response (aes_key d) (initial_vector d) = Ok content
    /\ handle_flow_request APP_SECRET (Some pem) PASSPHRASE get_next_screen
         signature_header raw_body
       = (Ok (Response 200 content),
          [Log INFO "Decrypted Request" None; Log DEBUG "Full decrypted body" None;
           Log INFO "Screen response prepared" None;
           Log DEBUG "Response to encrypt" None]).
Proof.
  intros Hpem Hsig Hreq Hdec Hbody Hnext.
  destruct (encrypt_response_after_decrypt_request L C _ _ _ d l response Hdec)
    as [content Henc].
  exists content. split; [exact Henc|].
  pose proof (signature_valid_only_for_expected_digest L _ _ _ Hsig)
    as (_ & _ & _ & _ & _ & _ & _ & _ & _ & Hlogs).
  pose proof (decrypt_request_returns_authenticated L _ _ _ d l Hdec) as [-> _].
  unfold handle_flow_request. destruct pem as [|c p]; [contradiction|].
  destruct (is_request_signature_valid APP_SECRET signature_header raw_body)
    as [v lv]. cbn [fst snd] in Hsig, Hlogs. subst v lv.
  cbn [bind negb]. rewrite Hreq. cbn [from_lib lift bind].
  unfold decrypt_or_reply, decrypt_parsed. rewrite Hdec. cbn [bind].
  rewrite Hbody in *. cbn [lift bind]. rewrite Hnext. cbn [lift bind log].
  rewrite Henc. reflexivity.
Qed.

(** X16.  A ping is answered as active: a request that verifies and
    decrypts to a dict whose action is [ping] gets the reply 200 whose
    body is the encryption, under the key and IV of the request, of the
    dict holding the version of the request (or [3.0]) and the data
    [status: active], whatever else the request holds. *)
Theorem handle_flow_request_answers_ping (L : Libs) (C : LibsContract L)
    (repr_compound : json -> list Z)
    (APP_SECRET : option (list Z)) (pem PASSPHRASE : list Z)
    (signature_header : option (list Z)) (raw_body : list Z)
    (kvs body : list (list Z * json)) (d : decrypted) (l : list log_record) :
  pem <> [] ->
  fst (is_request_signature_valid APP_SECRET signature_header raw_body) = Ok true ->
  request_json raw_body = inr (JDict kvs) ->
  decrypt_request (list_to_map kvs) pem PASSPHRASE = (Ok d, l) ->
  decrypted_body d = JDict body ->
  eq_str (get_or (list_to_map body) "action" JNull) "ping" = true ->
  exists content,
    encrypt_response
      (JDict [(lit "version", get_or (list_to_map body) "version" (JStr (lit "3.0")));
              (lit "data", JDict [(lit "status", JStr (lit "active"))])])
      (aes_key d) (initial_vector d) = Ok content
    /\ fst (handle_flow_request APP_SECRET (Some pem) PASSPHRASE
              (next_screen repr_compound) signature_header raw_body)
       = Ok (Response 200 content).
Proof.
  intros Hpem Hsig Hreq Hdec Hbody Hping.
  assert (Hnext : next_screen repr_compound (decrypted_body d)
                  = Ok (JDict [(lit "version",
                                get_or (list_to_map body) "version" (JStr (lit "3.0")));
                               (lit "data",
                                JDict [(lit "status", JStr (lit "active"))])])).
  { rewrite Hbody. unfold next_screen, get_next_screen. cbn [as_dict lift bind].
    rewrite Hping. reflexivity. }
  destruct (handle_flow_request_answers_200 L C APP_SECRET pem PASSPHRASE
              (next_screen repr_compound) signature_header raw_body kvs body d l _
              Hpem Hsig Hreq Hdec Hbody Hnext) as (content & Henc & Hrun).
  exists content. split; [exact Henc|]. rewrite Hrun. reflexivity.
Qed.

Lemma handle_flow_request_answers_ping_witness :
  exists content,
    @encrypt_response Bench.libs
      (JDict [(lit "version", JStr (lit "3.0"));
              (lit "data", JDict [(lit "status", JStr (lit "active"))])])
      Bench.k Bench.iv = Ok content
    /\ fst (@handle_flow_request Bench.libs (Some Bench.app_secret)
              (Some Bench.private_pem) [] (next_screen Demo.repr_compound)
              (Some (hex (Bench.mac Bench.app_secret Bench.raw_body))) Bench.raw_body)
       = Ok (Response 200 content).
Proof.
  apply (handle_flow_request_answers_ping Bench.libs bench_contract Demo.repr_compound
           (Some Bench.app_secret) Bench.private_pem []
           (Some (hex (Bench.mac Bench.app_secret Bench.raw_body))) Bench.raw_body
           (map_to_list Bench.request) [(lit "action", JStr (lit "ping"))]
           (Decrypted Bench.ping Bench.k Bench.iv) []);
    [discriminate|vm_compute; reflexivity..].
Defined.

Lemma handle_flow_request_answers_200_witness :
  exists content,
    @encrypt_response Bench.libs Bench.status_active Bench.k Bench.iv = Ok content
    /\ @handle_flow_request Bench.libs (Some Bench.app_secret) (Some Bench.private_pem) []
         (fun _ => Ok Bench.status_active)
         (Some (hex (Bench.mac Bench.app_secret Bench.raw_body))) Bench.raw_body
       = (Ok (Response 200 content),
          [Log INFO "Decrypted Request" None; Log DEBUG "Full decrypted body" None;
           Log INFO "Screen response prepared" None;
           Log DEBUG "Response to encrypt" None]).
Proof.
  apply (handle_flow_request_answers_200 Bench.libs bench_contract
           (Some Bench.app_secret) Bench.private_pem [] (fun _ => Ok Bench.status_active)
           (Some (hex (Bench.mac Bench.app_secret Bench.raw_body))) Bench.raw_body
           (map_to_list Bench.request) [(lit "action", JStr (lit "ping"))]
           (Decrypted Bench.ping Bench.k Bench.iv) [] Bench.status_active);
    [discriminate|vm_compute; reflexivity..].
Defined.

(** * The webhook endpoints *)

(** X17.  [verify_webhook] hands the challenge back only to a caller
    that presents the configured token: the reply is 200 with the
    challenge as body exactly when [hub.mode] is [subscribe] and
    [hub.verify_token] equals the configured token - [my_verify_token]
    when the variable is unset - and otherwise, also when either
    parameter is absent, it is 403 with an empty body. *)
Theorem verify_webhook_echoes_only_on_token (WEBHOOK_VERIFY_TOKEN : option (list Z))
    (query_params : gmap (list Z) (list Z)) :
  exists reply,
    fst (verify_webhook WEBHOOK_VERIFY_TOKEN query_params) = Ok reply
    /\ (reply_status reply = 200 <->
        query_params !! lit "hub.mode" = Some (lit "subscribe")
        /\ query_params !! lit "hub.verify_token"
           = Some (default (lit "my_verify_token") WEBHOOK_VERIFY_TOKEN))
    /\ (reply_status reply = 200 ->
        reply = Response 200 (default [] (query_params !! lit "hub.challenge")))
    /\ (reply_status reply <> 200 -> reply = Response 403 []).
Proof.
  unfold verify_webhook, verify_token.
  destruct (bool_decide (query_params !! lit "hub.mode" = Some (lit "subscribe")))
    eqn:Em;
    [destruct (bool_decide (query_params !! lit "hub.verify_token"
                            = Some (default (lit "my_verify_token")
                                      WEBHOOK_VERIFY_TOKEN))) eqn:Et|];
    cbn [andb]; eexists; (split; [reflexivity|]); cbn [reply_status].
  - apply bool_decide_eq_true in Em. apply bool_decide_eq_true in Et.
    repeat split; auto. intros H. contradiction.
  - apply bool_decide_eq_false in Et.
    split; [split; [discriminate|intros [_ H]; contradiction]|].
    split; [discriminate|reflexivity].
  - apply bool_decide_eq_false in Em.
    split; [split; [discriminate|intros [H _]; contradiction]|].
    split; [discriminate|reflexivity].
Qed.

(** A message that the loop of [handle_webhook] can log: a dict whose
    [text], when present, is a dict. *)
Lemma log_message_dict (mkvs : list (list Z * json)) :
  (forall v, (list_to_map mkvs : gmap (list Z) json) !! lit "text" = Some v ->
             exists t, v = JDict t) ->
  log_message (JDict mkvs) = inr (Log INFO "New message" None).
Proof.
  intros H. unfold log_message. cbn [attr_get sum_bind].
  destruct ((list_to_map mkvs : gmap (list Z) json) !! lit "text") as [v|] eqn:E.
  - destruct (H v eq_refl) as [t ->]. reflexivity.
  - reflexivity.
Qed.

Lemma log_message_not_dict (m : json) :
  (forall mkvs, m <> JDict mkvs) -> log_message m = inl NoAttribute.
Proof. intros H. destruct m; try reflexivity. exfalso. eapply H. reflexivity. Qed.

Lemma log_messages_app (good : list json) (rest : list json) :
  Forall (fun m => log_message m = inr (Log INFO "New message" None)) good ->
  log_messages (good ++ rest)
  = (repeat (Log INFO "New message" None) (length good) ++ fst (log_messages rest),
     snd (log_messages rest)).
Proof.
  induction 1 as [|m good Hm _ IH]; cbn [app length repeat log_messages].
  - destruct (log_messages rest). reflexivity.
  - rewrite Hm, IH. reflexivity.
Qed.

(** X18.  A notification is logged message by message: when the lookups
    of [handle_webhook] reach a list of messages, each a dict whose
    [text] is absent or a dict, the reply is [status: ok] and the log
    holds the record of the reception followed by exactly one record
    per message. *)
Theorem handle_webhook_logs_every_message (body : json) (messages : list json) :
  webhook_messages body = inr (JList messages) ->
  Forall (fun m => exists mkvs,
            m = JDict mkvs
            /\ forall v, (list_to_map mkvs : gmap (list Z) json) !! lit "text" = Some v ->
                         exists t, v = JDict t) messages ->
  handle_webhook body
  = (status_ok,
     Log INFO "Webhook received" None
     :: repeat (Log INFO "New message" None) (length messages)).
Proof.
  intros Hm Hwf. unfold handle_webhook. rewrite Hm.
  assert (Hall : Forall (fun m => log_message m = inr (Log INFO "New message" None))
                   messages).
  { eapply Forall_impl; [exact Hwf|]. cbv beta.
    intros m (mkvs & -> & H). apply log_message_dict, H. }
  pose proof (log_messages_app messages [] Hall) as Hlog.
  rewrite !app_nil_r in Hlog. cbn [log_messages fst snd] in Hlog.
  destruct messages as [|m ms]; [reflexivity|].
  cbn [truthy items]. rewrite bool_decide_eq_false_2 by discriminate. cbn [negb].
  rewrite Hlog. reflexivity.
Qed.

Lemma handle_webhook_logs_every_message_witness :
  handle_webhook (Demo.notification Demo.two_messages)
  = (status_ok,
     [Log INFO "Webhook received" None; Log INFO "New message" None;
      Log INFO "New message" None]).
Proof.
  apply (handle_webhook_logs_every_message (Demo.notification Demo.two_messages)
           Demo.two_messages).
  - reflexivity.
  - repeat constructor; eexists; (split; [reflexivity|]); intros v Hv;
      vm_compute in Hv; injection Hv as <-; eexists; reflexivity.
Defined.

(** X19.  A malformed message stops the loop without an exception
    leaving the handler: when the messages are well-formed up to one
    that is not a dict, the reply is [status: error], and the log holds
    the records of the messages before it, then the error record;
    nothing after it is read. *)
Theorem handle_webhook_stops_at_bad_message (body : json)
    (good rest : list json) (bad : json) :
  webhook_messages body = inr (JList (good ++ bad :: rest)) ->
  Forall (fun m => exists mkvs,
            m = JDict mkvs
            /\ forall v, (list_to_map mkvs : gmap (list Z) json) !! lit "text" = Some v ->
                         exists t, v = JDict t) good ->
  (forall mkvs, bad <> JDict mkvs) ->
  handle_webhook body
  = (status_error NoAttribute,
     Log INFO "Webhook received" None
     :: repeat (Log INFO "New message" None) (length good)
     ++ [Log ERROR "Error processing webhook" None]).
Proof.
  intros Hm Hwf Hbad. unfold handle_webhook. rewrite Hm.
  assert (Hall : Forall (fun m => log_message m = inr (Log INFO "New message" None)) good).
  { eapply Forall_impl; [exact Hwf|]. cbv beta.
    intros m (mkvs & -> & H). apply log_message_dict, H. }
  pose proof (log_messages_app good (bad :: rest) Hall) as Hlog.
  cbn [log_messages] in Hlog. rewrite (log_message_not_dict bad Hbad) in Hlog.
  cbn [fst snd] in Hlog. rewrite app_nil_r in Hlog.
  assert (Ht : truthy (JList (good ++ bad :: rest)) = true).
  { cbn [truthy]. rewrite bool_decide_eq_false_2; [reflexivity|].
    destruct good; discriminate. }
  rewrite Ht. cbn [items]. rewrite Hlog. reflexivity.
Qed.

Lemma handle_webhook_stops_at_bad_message_witness :
  handle_webhook
    (Demo.notification (Demo.two_messages ++ JStr (lit "oops") :: Demo.two_messages))
  = (status_error NoAttribute,
     [Log INFO "Webhook received" None; Log INFO "New message" None;
      Log INFO "New message" None; Log ERROR "Error processing webhook" None]).
Proof.
  apply (handle_webhook_stops_at_bad_message
           (Demo.notification (Demo.two_messages ++ JStr (lit "oops") :: Demo.two_messages))
           Demo.two_messages Demo.two_messages (JStr (lit "oops"))).
  - reflexivity.
  - repeat constructor; eexists; (split; [reflexivity|]); intros v Hv;
      vm_compute in Hv; injection Hv as <-; eexists; reflexivity.
  - discriminate.
Defined.

(** X20.  Defaults carry an empty notification through: for every body
    that is a dict without an [entry] key, the chain of defaults ends in
    an empty list of messages, and the reply is [status: ok] with
    nothing logged but the reception. *)
Theorem handle_webhook_without_entry (kvs : list (list Z * json)) :
  (list_to_map kvs : gmap (list Z) json) !! lit "entry" = None ->
  handle_webhook (JDict kvs) = (status_ok, [Log INFO "Webhook received" None]).
Proof.
  intros Hnone. unfold handle_webhook, webhook_messages.
  cbn [attr_get sum_bind]. rewrite Hnone. reflexivity.
Qed.

Lemma handle_webhook_without_entry_witness :
  handle_webhook (JDict [(lit "object", JStr (lit "whatsapp_business_account"))])
  = (status_ok, [Log INFO "Webhook received" None]).
Proof.
  apply (handle_webhook_without_entry
           [(lit "object", JStr (lit "whatsapp_business_account"))]).
  vm_compute. reflexivity.
Defined.

(** X21.  A body that is valid JSON but not an object does not make the
    handler raise: the failed [body.get] is caught, the reply is
    [status: error], and the error is logged after the reception. *)
Theorem handle_webhook_body_not_an_object (body : json) :
  (forall kvs, body <> JDict kvs) ->
  handle_webhook body
  = (status_error NoAttribute,
     [Log INFO "Webhook received" None; Log ERROR "Error processing webhook" None]).
Proof.
  intros H. destruct body; try reflexivity. exfalso. eapply H. reflexivity.
Qed.

Lemma handle_webhook_body_not_an_object_witness :
  handle_webhook (JList [])
  = (status_error NoAttribute,
     [Log INFO "Webhook received" None; Log ERROR "Error processing webhook" None]).
Proof.
  apply (handle_webhook_body_not_an_object (JList [])). discriminate.
Defined.

(** * The validators *)

(** What a greedy repetition matches: some run of characters of the set,
    of an allowed length, after which the rest of the pattern matches. *)
Lemma max_repeat_spec (member : Z -> bool) (k : nat -> list Z -> bool) (s : list Z) :
  forall (lo : nat) (hi : option nat) (pos : nat),
    max_repeat member lo hi k pos s = true <->
    exists run rest,
      s = run ++ rest
      /\ forallb member run = true
      /\ (lo <= length run)%nat
      /\ (forall h, hi = Some h -> (length run <= h)%nat)
      /\ k (pos + length run)%nat rest = true.
Proof.
  induction s as [|c s IH]; intros lo hi pos; cbn [max_repeat].
  - split.
    + intros H. apply andb_true_iff in H as [Hlo Hk]. apply Nat.eqb_eq in Hlo.
      exists [], []. cbn [length app forallb]. rewrite Nat.add_0_r.
      repeat split; auto; lia.
    + intros (run & rest & Hs & _ & Hlo & _ & Hk).
      symmetry in Hs. apply app_eq_nil in Hs as [-> ->].
      cbn [length] in Hlo, Hk. rewrite Nat.add_0_r in Hk. rewrite Hk.
      replace lo with 0%nat by lia. reflexivity.
  - split.
    + intros H.
      assert (Hcases :
                (may_repeat hi && member c = true
                 /\ max_repeat member (Nat.pred lo) (option_map Nat.pred hi) k (S pos) s
                    = true)
                \/ ((lo =? 0)%nat && k pos (c :: s) = true)).
      { destruct (may_repeat hi && member c); [|right; exact H].
        apply orb_true_iff in H as [H|H]; [left; split; [reflexivity|exact H]|right; exact H]. }
      destruct Hcases as [[Hc Hrec]|Hstop].
      * apply andb_true_iff in Hc as [Hmay Hmem].
        apply IH in Hrec as (run & rest & -> & Hall & Hlo & Hhi & Hk).
        exists (c :: run), rest. cbn [length app forallb]. rewrite Hmem, Hall.
        rewrite Nat.add_succ_r. repeat split; auto; [lia|].
        intros h ->. destruct h as [|h]; [discriminate|].
        specialize (Hhi h eq_refl). lia.
      * apply andb_true_iff in Hstop as [Hlo Hk]. apply Nat.eqb_eq in Hlo.
        exists [], (c :: s). cbn [length app forallb]. rewrite Nat.add_0_r.
        repeat split; auto; lia.
    + intros (run & rest & Hs & Hall & Hlo & Hhi & Hk).
      destruct run as [|c' run].
      * cbn [app length] in Hs, Hlo, Hk. subst rest. rewrite Nat.add_0_r in Hk.
        replace lo with 0%nat by lia. rewrite Hk. cbn [Nat.eqb andb].
        destruct (may_repeat hi && member c); [apply orb_true_r|reflexivity].
      * cbn [app] in Hs. injection Hs as <- ->.
        cbn [forallb] in Hall. apply andb_true_iff in Hall as [Hmem Hall].
        cbn [length] in Hlo, Hhi, Hk. rewrite Nat.add_succ_r in Hk.
        assert (Hmay : may_repeat hi = true).
        { destruct hi as [[|h]|]; try reflexivity. specialize (Hhi 0%nat eq_refl). lia. }
        rewrite Hmay, Hmem. cbn [andb]. apply orb_true_iff. left.
        apply IH. exists run, rest. repeat split; auto; [lia|].
        intros h Hh. destruct hi as [h'|]; [|discriminate].
        cbn [option_map] in Hh. injection Hh as <-.
        specialize (Hhi h' eq_refl). lia.
Qed.

Lemma at_end_spec (s : list Z) :
  bool_decide (s = []) || bool_decide (s = [10]) = true <-> s = [] \/ s = [10].
Proof.
  rewrite orb_true_iff, !bool_decide_eq_true. reflexivity.
Qed.

Lemma validate_email_inv (email : list Z) :
  validate_email email = true ->
  exists local domain tld newline,
    email = local ++ lit "@" ++ domain ++ lit "." ++ tld ++ newline
    /\ local <> [] /\ forallb local_char local = true
    /\ domain <> [] /\ forallb domain_char domain = true
    /\ (2 <= length tld)%nat /\ forallb letter tld = true
    /\ (newline = [] \/ newline = [10]).
Proof.
  unfold validate_email, re_match, EMAIL_PATTERN.
  change (lit "@") with [64]. change (lit ".") with [46].
  change (ord "@") with 64. change (ord ".") with 46.
  cbn [sre_match Nat.eqb andb]. rewrite max_repeat_spec.
  intros (local & rest & -> & Hlocal & Hlo & _ & Hk).
  cbn [sre_match] in Hk. destruct rest as [|x rest]; [discriminate|].
  apply andb_true_iff in Hk as [Hx Hk]. apply Z.eqb_eq in Hx as ->.
  apply max_repeat_spec in Hk as (domain & rest' & -> & Hdomain & Hlo' & _ & Hk).
  cbn [sre_match] in Hk. destruct rest' as [|x rest']; [discriminate|].
  apply andb_true_iff in Hk as [Hx Hk]. apply Z.eqb_eq in Hx as ->.
  apply max_repeat_spec in Hk as (tld & newline & -> & Htld & Hlo'' & _ & Hk).
  cbn [sre_match] in Hk. rewrite andb_true_r in Hk. apply at_end_spec in Hk.
  exists local, domain, tld, newline. cbn [app].
  repeat split; auto.
  - intros ->. cbn [length] in Hlo. lia.
  - intros ->. cbn [length] in Hlo'. lia.
Qed.

Lemma validate_email_intro (local domain tld newline : list Z) :
  local <> [] -> forallb local_char local = true ->
  domain <> [] -> forallb domain_char domain = true ->
  (2 <= length tld)%nat -> forallb letter tld = true ->
  newline = [] \/ newline = [10] ->
  validate_email (local ++ lit "@" ++ domain ++ lit "." ++ tld ++ newline) = true.
Proof.
  intros Hl Hlocal Hd Hdomain Ht Htld Hnl.
  unfold validate_email, re_match, EMAIL_PATTERN.
  change (lit "@") with [64]. change (lit ".") with [46].
  change (ord "@") with 64. change (ord ".") with 46.
  cbn [sre_match Nat.eqb andb]. apply max_repeat_spec.
  exists local, ([64] ++ domain ++ [46] ++ tld ++ newline).
  split; [reflexivity|]. split; [exact Hlocal|].
  split; [destruct local; [contradiction|cbn [length]; lia]|].
  split; [discriminate|].
  cbn [app sre_match]. rewrite Z.eqb_refl. cbn [andb].
  apply max_repeat_spec. exists domain, (46 :: tld ++ newline).
  split; [reflexivity|]. split; [exact Hdomain|].
  split; [destruct domain; [contradiction|cbn [length]; lia]|].
  split; [discriminate|].
  cbn [sre_match]. rewrite Z.eqb_refl. cbn [andb].
  apply max_repeat_spec. exists tld, newline.
  split; [reflexivity|]. split; [exact Htld|]. split; [exact Ht|].
  split; [discriminate|].
  cbn [sre_match]. rewrite andb_true_r. apply at_end_spec, Hnl.
Qed.

Lemma validate_phone_inv (decimal : Z -> bool) (phone : list Z) :
  validate_phone decimal phone = true ->
  exists plus first digits newline,
    phone = plus ++ [first] ++ digits ++ newline
    /\ (plus = [] \/ plus = lit "+")
    /\ 49 <= first <= 57
    /\ (1 <= length digits <= 14)%nat /\ forallb decimal digits = true
    /\ (newline = [] \/ newline = [10]).
Proof.
  unfold validate_phone, re_match, PHONE_PATTERN.
  change (lit "+") with [43]. change (ord "+") with 43.
  change (ord "1") with 49. change (ord "9") with 57.
  cbn [sre_match Nat.eqb andb]. rewrite max_repeat_spec.
  intros (plus & rest & -> & Hplus & _ & Hhi & Hk).
  cbn [sre_match] in Hk. destruct rest as [|first rest]; [discriminate|].
  apply andb_true_iff in Hk as [Hfirst Hk].
  apply max_repeat_spec in Hk as (digits & newline & -> & Hdigits & Hlo & Hhi' & Hk).
  cbn [sre_match] in Hk. rewrite andb_true_r in Hk. apply at_end_spec in Hk.
  exists plus, first, digits, newline. cbn [app].
  split; [reflexivity|]. split.
  { specialize (Hhi 1%nat eq_refl). destruct plus as [|c [|c' plus]].
    - left. reflexivity.
    - right. cbn [forallb] in Hplus. rewrite andb_true_r in Hplus.
      apply Z.eqb_eq in Hplus as ->. reflexivity.
    - cbn [length] in Hhi. lia. }
  split; [unfold in_range in Hfirst; lia|].
  split; [specialize (Hhi' 14%nat eq_refl); lia|].
  split; [exact Hdigits|exact Hk].
Qed.

Lemma validate_phone_intro (decimal : Z -> bool)
    (plus : list Z) (first : Z) (digits newline : list Z) :
  plus = [] \/ plus = lit "+" ->
  49 <= first <= 57 ->
  (1 <= length digits <= 14)%nat -> forallb decimal digits = true ->
  newline = [] \/ newline = [10] ->
  validate_phone decimal (plus ++ [first] ++ digits ++ newline) = true.
Proof.
  intros Hplus Hfirst Hlen Hdigits Hnl.
  unfold validate_phone, re_match, PHONE_PATTERN.
  change (lit "+") with [43] in Hplus. change (ord "+") with 43.
  change (ord "1") with 49. change (ord "9") with 57.
  cbn [sre_match Nat.eqb andb]. apply max_repeat_spec.
  exists plus, ([first] ++ digits ++ newline).
  split; [reflexivity|].
  split; [destruct Hplus as [->| ->]; reflexivity|].
  split; [lia|].
  split; [intros h [= <-]; destruct Hplus as [->| ->]; cbn [length]; lia|].
  cbn [app sre_match].
  apply andb_true_iff. split; [unfold in_range; lia|].
  apply max_repeat_spec. exists digits, newline.
  split; [reflexivity|]. split; [exact Hdigits|]. split; [lia|].
  split; [intros h [= <-]; lia|].
  cbn [sre_match]. rewrite andb_true_r. apply at_end_spec, Hnl.
Qed.

(** X22.  [validate_email] accepts exactly the strings made of a
    non-empty local part of letters, digits and [._%+-], one [@], a
    non-empty domain part of letters, digits, dots and hyphens, a dot
    and at least two letters, optionally followed by one newline. *)
Theorem validate_email_shape (email : list Z) :
  validate_email email = true <->
  exists local domain tld newline,
    email = local ++ lit "@" ++ domain ++ lit "." ++ tld ++ newline
    /\ local <> [] /\ forallb local_char local = true
    /\ domain <> [] /\ forallb domain_char domain = true
    /\ (2 <= length tld)%nat /\ forallb letter tld = true
    /\ (newline = [] \/ newline = [10]).
Proof.
  split; [apply validate_email_inv|].
  intros (local & domain & tld & newline & -> & Hl & Hlocal & Hd & Hdomain
          & Ht & Htld & Hnl).
  apply validate_email_intro; assumption.
Qed.

(** X23.  [validate_phone] accepts exactly the strings made of an
    optional [+], one digit from 1 to 9 and one to fourteen characters
    that [\d] matches - any decimal digit of Unicode, not only the
    ASCII ones - optionally followed by one newline. *)
Theorem validate_phone_shape (decimal : Z -> bool) (phone : list Z) :
  validate_phone decimal phone = true <->
  exists plus first digits newline,
    phone = plus ++ [first] ++ digits ++ newline
    /\ (plus = [] \/ plus = lit "+")
    /\ 49 <= first <= 57
    /\ (1 <= length digits <= 14)%nat /\ forallb decimal digits = true
    /\ (newline = [] \/ newline = [10]).
Proof.
  split; [apply validate_phone_inv|].
  intros (plus & first & digits & newline & -> & Hplus & Hfirst & Hlen & Hdigits & Hnl).
  apply validate_phone_intro; assumption.
Qed.

(** X24.  [validate_email] does not stop at the end of the address:
    every accepted address that does not already end in a newline is
    accepted again with a newline appended, because [$] also holds
    before a final newline. *)
Theorem validate_email_accepts_trailing_newline (email : list Z) :
  validate_email email = true -> last email <> Some 10 ->
  validate_email (email ++ [10]) = true.
Proof.
  intros Hv Hlast.
  apply validate_email_inv in Hv
    as (local & domain & tld & newline & -> & Hl & Hlocal & Hd & Hdomain & Ht & Htld & Hnl).
  destruct Hnl as [->| ->].
  - rewrite app_nil_r, <- !app_assoc.
    apply validate_email_intro; auto.
  - exfalso. apply Hlast. rewrite !last_app. reflexivity.
Qed.

Lemma validate_email_accepts_trailing_newline_witness :
  validate_email (lit "user@example.com" ++ [10]) = true.
Proof.
  apply (validate_email_accepts_trailing_newline (lit "user@example.com")).
  - vm_compute. reflexivity.
  - vm_compute. discriminate.
Defined.

(** X25.  The same holds for [validate_phone]: every accepted number
    that does not already end in a newline is accepted again with a
    newline appended. *)
Theorem validate_phone_accepts_trailing_newline (decimal : Z -> bool) (phone : list Z) :
  validate_phone decimal phone = true -> last phone <> Some 10 ->
  validate_phone decimal (phone ++ [10]) = true.
Proof.
  intros Hv Hlast.
  apply validate_phone_inv in Hv
    as (plus & first & digits & newline & -> & Hplus & Hfirst & Hlen & Hdigits & Hnl).
  destruct Hnl as [->| ->].
  - rewrite app_nil_r, <- !app_assoc.
    apply validate_phone_intro; auto.
  - exfalso. apply Hlast. rewrite !last_app. reflexivity.
Qed.

Lemma validate_phone_accepts_trailing_newline_witness :
  validate_phone Demo.decimal (lit "+15551230001" ++ [10]) = true.
Proof.
  apply (validate_phone_accepts_trailing_newline Demo.decimal (lit "+15551230001")).
  - vm_compute. reflexivity.
  - vm_compute. discriminate.
Defined.
